(** * Django recipe API: owner-scoped viewsets over the REST framework

    A shallow embedding of
      - [app/recipe/views.py]  (RecipeViewSet, TagViewSet, IngredientViewSet),
      - [app/recipe/urls.py]   (the router registrations),
      - [app/user/views.py]    (CreateUserViews, CreateTokenView, ManageUserView),
      - [app/app/test.py]      (the [calc.add] test),
      - [app/recipe/tests/test_ingredient_api.py] (the ingredient tests),
    together with the part of Django and of the REST framework these files
    run on: class attribute lookup along the method resolution order, the
    request dispatch of [APIView], the model mixins, the router's route
    table, and query sets over tables of rows. *)

From Stdlib Require Import ZArith Ascii String List Permutation Sorted.
From stdpp Require Import gmap strings list fin_maps.

Local Open Scope string_scope.

(** ** app/calc.py *)

Module calc.

(** Modelled from the spec: [app/calc.py] is not among the sources, only its
    test [CalcTests.test_add_number]; the spec describes [calc.add] as a
    trivial utility with [calc.add(5, 6) == 11], that is, the sum of its two
    arguments, on Python's unbounded integers. *)
Definition add (x y : Z) : Z := (x + y)%Z.

End calc.

(** ** Values, rows, tables *)

(** [request.user]: Django's [AnonymousUser], or a user instance (by primary
    key). *)
Inductive PyUser : Type :=
  | AnonymousUser
  | User (pk : nat).

(** A Python value as it occurs in request data, validated data and model
    columns: a string, an integer, or a user object. *)
Inductive Value : Type :=
  | VStr (s : string)
  | VInt (z : Z)
  | VUser (u : PyUser).

(** A Python [dict] with string keys. *)
Abbreviation Dict := (gmap string Value).

(** The models of [core.models] the views import. *)
Inductive Model : Type := Recipe | Tag | Ingredient.

(** Modelled from the spec: [core/models.py] is not among the sources.  Every
    [Recipe], [Tag] and [Ingredient] is "owned by a user" through a foreign
    key, [user]; tags and ingredients are "simple name-bearing entities" and a
    recipe "has scalar fields": the columns other than [id] and [user] are
    kept as a dictionary. *)
Record Row : Type := {
  row_id : nat;
  row_user : nat;
  row_fields : Dict
}.

(** A row of the user table. *)
Record UserRow : Type := {
  is_active : bool;
  user_fields : Dict
}.

(** The database: one table per model in storage order, the user table, the
    token table of [rest_framework.authtoken] (key to user), for basic
    authentication the credentials the authentication backend accepts
    (the encoded [userid:password] word to user), and the [id] sequence of
    each table: the value it hands out next.  A sequence only grows, so the
    id of a deleted row is not handed out again. *)
Record Store : Type := {
  users : gmap nat UserRow;
  tokens : gmap string nat;
  basic_credentials : gmap string nat;
  recipes : list Row;
  tags : list Row;
  ingredients : list Row;
  user_id_seq : nat;
  recipe_id_seq : nat;
  tag_id_seq : nat;
  ingredient_id_seq : nat
}.

Definition table (m : Model) (st : Store) : list Row :=
  match m with
  | Recipe => recipes st
  | Tag => tags st
  | Ingredient => ingredients st
  end.

Definition id_seq (m : Model) (st : Store) : nat :=
  match m with
  | Recipe => recipe_id_seq st
  | Tag => tag_id_seq st
  | Ingredient => ingredient_id_seq st
  end.

(** The least id above the ids of the rows. *)
Definition fresh_id (rows : list Row) : nat :=
  S (foldr Nat.max 0 (List.map row_id rows)).

(** The least key above the keys of the user table. *)
Definition fresh_user_id (us : gmap nat UserRow) : nat :=
  S (map_fold (fun pk _ acc => Nat.max pk acc) 0 us).

(** The id the database gives the next row of a table: the value of the
    sequence.  In a database all of whose rows were created by the
    application the sequence is above every stored id; should a row have
    been stored past the sequence, the id is above that row too, as with
    SQLite's AUTOINCREMENT. *)
Definition next_id (m : Model) (st : Store) : nat :=
  Nat.max (id_seq m st) (fresh_id (table m st)).

Definition next_user_id (st : Store) : nat :=
  Nat.max (user_id_seq st) (fresh_user_id (users st)).

(** Writing a table: the sequence stays above every id the table has held. *)
Definition set_table (m : Model) (rows : list Row) (st : Store) : Store :=
  match m with
  | Recipe =>
      {| users := users st; tokens := tokens st;
         basic_credentials := basic_credentials st;
         recipes := rows; tags := tags st; ingredients := ingredients st;
         user_id_seq := user_id_seq st;
         recipe_id_seq := Nat.max (next_id Recipe st) (fresh_id rows);
         tag_id_seq := tag_id_seq st;
         ingredient_id_seq := ingredient_id_seq st |}
  | Tag =>
      {| users := users st; tokens := tokens st;
         basic_credentials := basic_credentials st;
         recipes := recipes st; tags := rows; ingredients := ingredients st;
         user_id_seq := user_id_seq st;
         recipe_id_seq := recipe_id_seq st;
         tag_id_seq := Nat.max (next_id Tag st) (fresh_id rows);
         ingredient_id_seq := ingredient_id_seq st |}
  | Ingredient =>
      {| users := users st; tokens := tokens st;
         basic_credentials := basic_credentials st;
         recipes := recipes st; tags := tags st; ingredients := rows;
         user_id_seq := user_id_seq st;
         recipe_id_seq := recipe_id_seq st;
         tag_id_seq := tag_id_seq st;
         ingredient_id_seq :=
           Nat.max (next_id Ingredient st) (fresh_id rows) |}
  end.

Definition set_users (us : gmap nat UserRow) (st : Store) : Store :=
  {| users := us; tokens := tokens st;
     basic_credentials := basic_credentials st;
     recipes := recipes st; tags := tags st; ingredients := ingredients st;
     user_id_seq := Nat.max (next_user_id st) (fresh_user_id us);
     recipe_id_seq := recipe_id_seq st;
     tag_id_seq := tag_id_seq st;
     ingredient_id_seq := ingredient_id_seq st |}.

Definition set_tokens (ts : gmap string nat) (st : Store) : Store :=
  {| users := users st; tokens := ts;
     basic_credentials := basic_credentials st;
     recipes := recipes st; tags := tags st; ingredients := ingredients st;
     user_id_seq := user_id_seq st;
     recipe_id_seq := recipe_id_seq st;
     tag_id_seq := tag_id_seq st;
     ingredient_id_seq := ingredient_id_seq st |}.

(** ** Query sets *)

(** A query set is a lazy description of a query: the model, the
    [filter(user=...)] conditions and the last [order_by] column.  It is
    evaluated against the database when the response is built. *)
Record QuerySet : Type := {
  qs_model : Model;
  qs_user_is : list nat;
  qs_order_by : option string
}.

(** [Model.objects.all()] *)
Definition objects_all (m : Model) : QuerySet :=
  {| qs_model := m; qs_user_is := []; qs_order_by := None |}.

(** [queryset.all()]: a copy of the query set. *)
Definition all (q : QuerySet) : QuerySet := q.

(** [queryset.filter(user=u)]; an [AnonymousUser] is not a model instance
    and the lookup raises. *)
Definition filter_user (u : PyUser) (q : QuerySet) : option QuerySet :=
  match u with
  | AnonymousUser => None
  | User pk =>
      Some {| qs_model := qs_model q;
              qs_user_is := pk :: qs_user_is q;
              qs_order_by := qs_order_by q |}
  end.

(** [queryset.order_by(col)] *)
Definition order_by (col : string) (q : QuerySet) : QuerySet :=
  {| qs_model := qs_model q;
     qs_user_is := qs_user_is q;
     qs_order_by := Some col |}.

(** The value of a column of a row; a missing column reads as the empty
    string, the default of a character field. *)
Definition column (col : string) (r : Row) : Value :=
  if decide (col = "id") then VInt (Z.of_nat (row_id r))
  else if decide (col = "user") then VUser (User (row_user r))
  else default (VStr "") (row_fields r !! col).

Definition user_rank (u : PyUser) : nat :=
  match u with
  | AnonymousUser => 0
  | User pk => S pk
  end.

(** The order of the values of a column. Strings compare bytewise. *)
Definition value_leb (a b : Value) : bool :=
  match a, b with
  | VStr s, VStr t => String.leb s t
  | VStr _, _ => true
  | VInt _, VStr _ => false
  | VInt x, VInt y => (x <=? y)%Z
  | VInt _, VUser _ => true
  | VUser p, VUser q => (user_rank p <=? user_rank q)%nat
  | VUser _, _ => false
  end.

(** Stable insertion sort by a boolean "comes no later than" relation. *)
Fixpoint insert_sorted {A : Type} (le : A -> A -> bool) (x : A) (l : list A)
  : list A :=
  match l with
  | [] => [x]
  | y :: l' => if le x y then x :: l else y :: insert_sorted le x l'
  end.

Fixpoint sort_by {A : Type} (le : A -> A -> bool) (l : list A) : list A :=
  match l with
  | [] => []
  | x :: l' => insert_sorted le x (sort_by le l')
  end.

(** ["-col"] orders by [col] descending, ["col"] ascending. *)
Definition row_le (spec : string) (a b : Row) : bool :=
  match spec with
  | String "-" col => value_leb (column col b) (column col a)
  | col => value_leb (column col a) (column col b)
  end.

Definition matches (q : QuerySet) (r : Row) : bool :=
  forallb (fun u => Nat.eqb (row_user r) u) (qs_user_is q).

(** Evaluation of a query set: the rows of the table that satisfy every
    filter, ordered as requested; without [order_by], in storage order. *)
Definition evaluate (st : Store) (q : QuerySet) : list Row :=
  let rows := List.filter (matches q) (table (qs_model q) st) in
  match qs_order_by q with
  | None => rows
  | Some spec => sort_by (row_le spec) rows
  end.

(** [get_object_or_404(queryset, pk=pk)] *)
Definition get_by_pk (st : Store) (q : QuerySet) (pk : nat) : option Row :=
  List.find (fun r => Nat.eqb (row_id r) pk) (evaluate st q).

(** ** Classes and attribute lookup *)

(** [rest_framework.authentication] *)
Inductive AuthClass : Type :=
  | TokenAuthentication
  | SessionAuthentication
  | BasicAuthentication.

(** [rest_framework.permissions] *)
Inductive PermClass : Type :=
  | IsAuthenticated
  | AllowAny.

(** [rest_framework.renderers] *)
Inductive RendererClass : Type :=
  | JSONRenderer
  | BrowsableAPIRenderer.

(** [renderer.format] *)
Definition renderer_format (r : RendererClass) : string :=
  match r with
  | JSONRenderer => "json"
  | BrowsableAPIRenderer => "api"
  end.

(** The serializer classes of [recipe.serializers] and [user.serializers]
    the views name. *)
Inductive SerializerClass : Type :=
  | RecipeSerializer
  | RecipeDetailSerializer
  | TagSerializer
  | IngredientSerializer
  | UserSerializer
  | AuthTokenSerializer.

(** The function objects a class dictionary can hold, one per [def] of the
    views and of the framework classes they inherit from. *)
Module def.
Inductive Code : Type :=
  (* recipe/views.py *)
  | RecipeViewSet_get_queryset
  | RecipeViewSet_get_serializer_class
  | RecipeViewSet_perform_create
  | TagViewSet_get_queryset
  | IngredientViewSet_get_query
  (* user/views.py *)
  | ManageUserView_get_object
  (* rest_framework.generics *)
  | GenericAPIView_get_queryset
  | GenericAPIView_get_serializer_class
  | GenericAPIView_get_object
  | CreateAPIView_post
  | RetrieveUpdateAPIView_get
  | RetrieveUpdateAPIView_put
  | RetrieveUpdateAPIView_patch
  (* rest_framework.mixins *)
  | CreateModelMixin_create
  | CreateModelMixin_perform_create
  | ListModelMixin_list
  | RetrieveModelMixin_retrieve
  | UpdateModelMixin_update
  | UpdateModelMixin_partial_update
  | UpdateModelMixin_perform_update
  | DestroyModelMixin_destroy
  | DestroyModelMixin_perform_destroy
  (* rest_framework.authtoken.views *)
  | ObtainAuthToken_post
  (* rest_framework.routers *)
  | APIRootView_get.
End def.

(** The value of a class or instance attribute. *)
Inductive Attr : Type :=
  | ANone
  | AAuthClasses (l : list AuthClass)
  | APermClasses (l : list PermClass)
  | ASerializerClass (s : SerializerClass)
  | AQuerySet (q : QuerySet)
  | ARenderers (l : list RendererClass)
  | ARootDict (d : list (string * bool))
  | AMethod (c : def.Code).

(** A class body: the names it binds. *)
Abbreviation ClassDict := (gmap string Attr).

(** [getattr(obj, name)]: the first binding of [name] along the instance
    dictionary and the classes of the method resolution order. *)
Fixpoint getattr (mro : list ClassDict) (name : string) : option Attr :=
  match mro with
  | [] => None
  | d :: bases =>
      match d !! name with
      | Some a => Some a
      | None => getattr bases name
      end
  end.

Definition hasattr (mro : list ClassDict) (name : string) : bool :=
  match getattr mro name with
  | Some _ => true
  | None => false
  end.

(** ** Requests, responses, exceptions *)

(** The HTTP methods the routes of the API name; a request of this
    development carries one of them.  HEAD and OPTIONS, which the framework
    answers by itself (HEAD as a GET, OPTIONS with the metadata of the
    view), are not among them: no statement below speaks of such a
    request. *)
Inductive HttpMethod : Type := GET | POST | PUT | PATCH | DELETE.

(** [request.method.lower()] *)
Definition method_lower (m : HttpMethod) : string :=
  match m with
  | GET => "get"
  | POST => "post"
  | PUT => "put"
  | PATCH => "patch"
  | DELETE => "delete"
  end.

(** An incoming request.  [authorization] is the Authorization header split
    at white space; [session_user] is the user Django's session middleware
    attached, if any, and [csrf_ok] whether the CSRF check accepts the
    request; [force_auth_user] is set by the test client's
    [force_authenticate]; [data] is the parsed body. *)
Record Request : Type := {
  method : HttpMethod;
  authorization : list string;
  session_user : option nat;
  csrf_ok : bool;
  force_auth_user : option nat;
  data : Dict
}.

(** The exceptions a view can end with; [ServerError] stands for any Python
    exception the framework does not handle (the response is a 500). *)
Inductive Exception : Type :=
  | NotAuthenticated
  | AuthenticationFailed
  | PermissionDenied
  | Http404
  | MethodNotAllowed
  | ValidationError
  | ServerError.

(** What a serializer renders: a model row, a user, a token.  The data of a
    response: nothing, the detail of an error, the rows of a list, one
    object, the key of a token, or the links of the API root, one per
    prefix. *)
Inductive Repr : Type :=
  | ReprRow (r : Row)
  | ReprUser (pk : nat) (u : UserRow)
  | ReprDict (d : Dict).

Inductive Data : Type :=
  | NoData
  | ErrorDetail (e : Exception)
  | Many (s : SerializerClass) (rows : list Row)
  | One (s : SerializerClass) (r : Repr)
  | TokenKey (key : string)
  | Links (prefixes : list string).

Record Response : Type := {
  status_code : nat;
  response_data : Data
}.

Definition HTTP_200_OK : nat := 200.
Definition HTTP_201_CREATED : nat := 201.
Definition HTTP_204_NO_CONTENT : nat := 204.
Definition HTTP_400_BAD_REQUEST : nat := 400.
Definition HTTP_401_UNAUTHORIZED : nat := 401.
Definition HTTP_403_FORBIDDEN : nat := 403.
Definition HTTP_404_NOT_FOUND : nat := 404.
Definition HTTP_405_METHOD_NOT_ALLOWED : nat := 405.
Definition HTTP_500_INTERNAL_SERVER_ERROR : nat := 500.

(** ** The state and exception monad of a view *)

Definition M (A : Type) : Type := Store -> (Exception + A) * Store.

Definition ret {A : Type} (a : A) : M A := fun st => (inr a, st).

Definition raise {A : Type} (e : Exception) : M A := fun st => (inl e, st).

Definition bind {A B : Type} (m : M A) (k : A -> M B) : M B :=
  fun st =>
    match m st with
    | (inl e, st') => (inl e, st')
    | (inr a, st') => k a st'
    end.

Definition get_store : M Store := fun st => (inr st, st).

Definition put_store (st' : Store) : M unit := fun _ => (inr tt, st').

(** A Python expression that raises where the model has [None]. *)
Definition try {A : Type} (o : option A) : M A :=
  match o with
  | Some a => ret a
  | None => raise ServerError
  end.

#[global] Instance M_ret : MRet M := @ret.
#[global] Instance M_bind : MBind M := fun A B k m => bind m k.

(** ** Settings *)

(** Modelled from the spec: [app/settings.py] is not among the sources; the
    framework reads from it the classes a view falls back on when its class
    does not bind [authentication_classes], [permission_classes] or
    [renderer_classes]. *)
Record Settings : Type := {
  DEFAULT_AUTHENTICATION_CLASSES : list AuthClass;
  DEFAULT_PERMISSION_CLASSES : list PermClass;
  DEFAULT_RENDERER_CLASSES : list RendererClass
}.

(** The framework's own defaults, in force when the settings module leaves
    the keys out. *)
Definition rest_framework_defaults : Settings :=
  {| DEFAULT_AUTHENTICATION_CLASSES :=
       [SessionAuthentication; BasicAuthentication];
     DEFAULT_PERMISSION_CLASSES := [AllowAny];
     DEFAULT_RENDERER_CLASSES := [JSONRenderer; BrowsableAPIRenderer] |}.

(** The parts of the project the views call and the sources leave out: the
    settings, and the validation of each serializer class
    ([serializer.is_valid()]: the validated data, or nothing when the data
    is rejected), which may consult the database and differs for a partial
    update. *)
Record Project : Type := {
  settings : Settings;
  run_validation : SerializerClass -> bool -> Store -> Dict -> option Dict;
  generate_key : Store -> string
}.

(** ** Authentication and permissions (rest_framework) *)

Definition lower_ascii (c : ascii) : ascii :=
  let n := nat_of_ascii c in
  if ((65 <=? n)%nat && (n <=? 90)%nat)%bool then ascii_of_nat (n + 32) else c.

(** [bytes.lower()] *)
Fixpoint lower (s : string) : string :=
  match s with
  | EmptyString => EmptyString
  | String c s' => String (lower_ascii c) (lower s')
  end.

(** An active user of the user table. *)
Definition active_user (st : Store) (pk : nat) : bool :=
  match users st !! pk with
  | Some u => is_active u
  | None => false
  end.

(** [authenticator.authenticate(request)]: [inr None] when the scheme does
    not apply, [inr (Some u)] on success, an exception on bad credentials. *)
Definition authenticate (c : AuthClass) (st : Store) (req : Request)
  : Exception + option nat :=
  match c with
  | TokenAuthentication =>
      match authorization req with
      | [] => inr None
      | kw :: rest =>
          if negb (String.eqb (lower kw) "token") then inr None
          else match rest with
               | [key] =>
                   match tokens st !! key with
                   | Some u =>
                       if active_user st u then inr (Some u)
                       else inl AuthenticationFailed
                   | None => inl AuthenticationFailed
                   end
               | _ => inl AuthenticationFailed
               end
      end
  | SessionAuthentication =>
      match session_user req with
      | Some u =>
          if active_user st u then
            if csrf_ok req then inr (Some u) else inl PermissionDenied
          else inr None
      | None => inr None
      end
  | BasicAuthentication =>
      match authorization req with
      | [] => inr None
      | kw :: rest =>
          if negb (String.eqb (lower kw) "basic") then inr None
          else match rest with
               | [credentials] =>
                   match basic_credentials st !! credentials with
                   | Some u =>
                       if active_user st u then inr (Some u)
                       else inl AuthenticationFailed
                   | None => inl AuthenticationFailed
                   end
               | _ => inl AuthenticationFailed
               end
      end
  end.

(** [authenticator.authenticate_header(request)] *)
Definition authenticate_header (c : AuthClass) : option string :=
  match c with
  | TokenAuthentication => Some "Token"
  | SessionAuthentication => None
  | BasicAuthentication => Some "Basic realm=api"
  end.

(** The authenticators of a request: those of the view, or the forced one
    of the test client. *)
Inductive Authenticator : Type :=
  | OfClass (c : AuthClass)
  | ForcedAuthentication (u : nat).

Definition request_authenticators (classes : list AuthClass) (req : Request)
  : list Authenticator :=
  match force_auth_user req with
  | Some u => [ForcedAuthentication u]
  | None => List.map OfClass classes
  end.

(** [Request._authenticate]: the first authenticator that applies decides;
    the result is [request.user] and whether an authenticator succeeded. *)
Fixpoint _authenticate (l : list Authenticator) (st : Store) (req : Request)
  : Exception + (PyUser * bool) :=
  match l with
  | [] => inr (AnonymousUser, false)
  | ForcedAuthentication u :: _ => inr (User u, true)
  | OfClass c :: l' =>
      match authenticate c st req with
      | inl e => inl e
      | inr (Some u) => inr (User u, true)
      | inr None => _authenticate l' st req
      end
  end.

(** [permission.has_permission(request, view)] *)
Definition has_permission (p : PermClass) (user : PyUser) : bool :=
  match p with
  | AllowAny => true
  | IsAuthenticated =>
      match user with
      | User _ => true
      | AnonymousUser => false
      end
  end.

(** [APIView.permission_denied] *)
Definition permission_denied (authenticators : list Authenticator)
    (successful : bool) : Exception :=
  match authenticators with
  | _ :: _ => if successful then PermissionDenied else NotAuthenticated
  | [] => PermissionDenied
  end.

(** [APIView.check_permissions] *)
Definition check_permissions (perms : list PermClass)
    (authenticators : list Authenticator) (user : PyUser) (successful : bool)
  : Exception + unit :=
  if forallb (fun p => has_permission p user) perms then inr tt
  else inl (permission_denied authenticators successful).

(** [APIView.handle_exception] with the framework's exception handler: the
    status of the response to an exception.  An authentication error is a
    401 only when the first authentication class of the view supplies a
    WWW-Authenticate header, and a 403 otherwise. *)
Definition exception_status (classes : list AuthClass) (e : Exception) : nat :=
  match e with
  | NotAuthenticated | AuthenticationFailed =>
      match classes with
      | c :: _ =>
          match authenticate_header c with
          | Some _ => HTTP_401_UNAUTHORIZED
          | None => HTTP_403_FORBIDDEN
          end
      | [] => HTTP_403_FORBIDDEN
      end
  | PermissionDenied => HTTP_403_FORBIDDEN
  | Http404 => HTTP_404_NOT_FOUND
  | MethodNotAllowed => HTTP_405_METHOD_NOT_ALLOWED
  | ValidationError => HTTP_400_BAD_REQUEST
  | ServerError => HTTP_500_INTERNAL_SERVER_ERROR
  end.

Definition handle_exception (classes : list AuthClass) (e : Exception)
  : Response :=
  {| status_code := exception_status classes e;
     response_data := ErrorDetail e |}.

(** ** Views and serializers *)

(** A view instance during a request: its attributes (the instance
    dictionary first, then the classes of the method resolution order), the
    request, [request.user], the action of a viewset and the [pk] of the
    URL. *)
Record View : Type := {
  attrs : list ClassDict;
  request : Request;
  request_user : PyUser;
  action : option string;
  kwargs_pk : option nat
}.

(** [self.queryset] *)
Definition self_queryset (self : View) : option QuerySet :=
  match getattr (attrs self) "queryset" with
  | Some (AQuerySet q) => Some q
  | _ => None
  end.

(** [self.serializer_class] *)
Definition self_serializer_class (self : View) : option SerializerClass :=
  match getattr (attrs self) "serializer_class" with
  | Some (ASerializerClass s) => Some s
  | _ => None
  end.

(** [self.action == a] and [self.action in l] *)
Definition action_is (self : View) (a : string) : bool :=
  bool_decide (action self = Some a).

Definition action_in (self : View) (l : list string) : bool :=
  existsb (action_is self) l.

(** The object a detail view works on. *)
Inductive Instance : Type :=
  | ModelInstance (m : Model) (r : Row)
  | UserObject (u : PyUser).

Record Serializer : Type := {
  ser_class : SerializerClass;
  instance : option Instance;
  initial_data : option Dict;
  partial : bool;
  validated_data : option Dict
}.

Inductive MetaModel : Type :=
  | OfModel (m : Model)
  | UserModel
  | NoModel.

(** Modelled from the spec: [recipe/serializers.py] and [user/serializers.py]
    are not among the sources.  A serializer is a "declarative schema mapping
    model fields to/from JSON" and entities are "created via POST through
    the serializer's validated-data save": each is taken as the framework's
    model serializer of the model it is named for, the token serializer as a
    plain one. *)
Definition Meta_model (s : SerializerClass) : MetaModel :=
  match s with
  | RecipeSerializer | RecipeDetailSerializer => OfModel Recipe
  | TagSerializer => OfModel Tag
  | IngredientSerializer => OfModel Ingredient
  | UserSerializer => UserModel
  | AuthTokenSerializer => NoModel
  end.

(** [Model.objects.create] applied to the validated data: the owner is the [user]
    keyword, which must be a user instance; the id comes from the sequence
    of the table. *)
Definition objects_create (m : Model) (vd : Dict) : M Row :=
  fun st =>
    match vd !! "user" with
    | Some (VUser (User u)) =>
        let r := {| row_id := next_id m st; row_user := u;
                    row_fields := delete "user" vd |} in
        (inr r, set_table m (table m st ++ [r]) st)
    | _ => (inl ServerError, st)
    end.

(** [setattr(instance, attr, value)] for every validated item. *)
Definition set_attrs (vd : Dict) (r : Row) : option Row :=
  match vd !! "user" with
  | Some (VUser (User u)) =>
      Some {| row_id := row_id r; row_user := u;
              row_fields := delete "user" vd ∪ row_fields r |}
  | Some _ => None
  | None =>
      Some {| row_id := row_id r; row_user := row_user r;
              row_fields := vd ∪ row_fields r |}
  end.

(** [instance.save()] of an existing row. *)
Definition save_row (m : Model) (r : Row) : M unit :=
  fun st =>
    (inr tt,
     set_table m
       (List.map (fun x => if Nat.eqb (row_id x) (row_id r) then r else x)
                 (table m st)) st).

(** [instance.delete()] *)
Definition delete_instance (i : Instance) : M unit :=
  fun st =>
    match i with
    | ModelInstance m r =>
        (inr tt,
         set_table m
           (List.filter (fun x => negb (Nat.eqb (row_id x) (row_id r)))
                        (table m st)) st)
    | UserObject (User pk) => (inr tt, set_users (delete pk (users st)) st)
    | UserObject AnonymousUser => (inl ServerError, st)
    end.

(** [get_user_model().objects.create_user], with the given columns: a new,
    active user, whose key comes from the sequence of the user table. *)
Definition create_user_row (cols : Dict) : M nat :=
  fun st =>
    let pk := next_user_id st in
    (inr pk,
     set_users (<[pk := {| is_active := true; user_fields := cols |}]>
                  (users st)) st).

(** [serializer.create(validated_data)] *)
Definition serializer_create (c : SerializerClass) (vd : Dict) : M Instance :=
  match Meta_model c with
  | OfModel m => r ← objects_create m vd; mret (ModelInstance m r)
  | UserModel => pk ← create_user_row vd; mret (UserObject (User pk))
  | NoModel => raise ServerError
  end.

(** [serializer.update(instance, validated_data)] *)
Definition serializer_update (i : Instance) (vd : Dict) : M Instance :=
  match i with
  | ModelInstance m r =>
      r' ← try (set_attrs vd r);
      save_row m r';;
      mret (ModelInstance m r')
  | UserObject (User pk) =>
      fun st =>
        match users st !! pk with
        | Some u =>
            (inr i,
             set_users (<[pk := {| is_active := is_active u;
                                   user_fields := vd ∪ user_fields u |}]>
                          (users st)) st)
        | None => (inl ServerError, st)
        end
  | UserObject AnonymousUser => raise ServerError
  end.

(** [serializer.save] with keyword arguments: the keyword arguments override the
    validated data (the dictionary of the latter updated with the former). *)
Definition save (ser : Serializer) (kwargs : Dict) : M Serializer :=
  vd ← try (validated_data ser);
  let vd' := kwargs ∪ vd in
  i ← match instance ser with
      | Some i => serializer_update i vd'
      | None => serializer_create (ser_class ser) vd'
      end;
  mret {| ser_class := ser_class ser; instance := Some i;
          initial_data := initial_data ser; partial := partial ser;
          validated_data := validated_data ser |}.

(** [serializer.data] *)
Definition serializer_data (ser : Serializer) : M Repr :=
  match instance ser with
  | Some (ModelInstance _ r) => mret (ReprRow r)
  | Some (UserObject (User pk)) =>
      st ← get_store;
      match users st !! pk with
      | Some u => mret (ReprUser pk u)
      | None => raise ServerError
      end
  | Some (UserObject AnonymousUser) => raise ServerError
  | None =>
      match validated_data ser with
      | Some vd => mret (ReprDict vd)
      | None => mret (ReprDict (default ∅ (initial_data ser)))
      end
  end.

(** ** The representation a serializer renders *)

(** Modelled from the spec: [recipe/serializers.py] is not among the
    sources, so the fields each serializer declares are a parameter,
    [Meta_fields].  A serializer is a "declarative schema mapping model
    fields to/from JSON": the representation of a row has one item for each
    field of the serializer, the value of that column. *)
Definition to_representation (Meta_fields : SerializerClass -> list string)
    (s : SerializerClass) (r : Row) : list (string * Value) :=
  List.map (fun k => (k, column k r)) (Meta_fields s).

(** Modelled from the spec: the recipe serializers come with a "nested
    detail variant", "a richer representation for single-item retrieval
    than for listing": the detail serializer declares every field of the
    plain recipe serializer, and a field the plain one does not declare. *)
Definition detail_variant (Meta_fields : SerializerClass -> list string)
  : Prop :=
  (forall k, In k (Meta_fields RecipeSerializer) ->
             In k (Meta_fields RecipeDetailSerializer))
  /\ exists k, In k (Meta_fields RecipeDetailSerializer)
               /\ ~ In k (Meta_fields RecipeSerializer).

(** The objects in the data of a response, each as its serializer renders
    it: one per row of a list, one for a single row. *)
Definition representations (Meta_fields : SerializerClass -> list string)
    (d : Data) : list (list (string * Value)) :=
  match d with
  | Many s rows => List.map (to_representation Meta_fields s) rows
  | One s (ReprRow r) => [to_representation Meta_fields s r]
  | _ => []
  end.

(** ** The framework's view classes *)

Module rest_framework.

(** [APIView]: the policies come from the settings. *)
Definition APIView (s : Settings) : ClassDict :=
  {[ "authentication_classes" :=
       AAuthClasses (DEFAULT_AUTHENTICATION_CLASSES s);
     "permission_classes" := APermClasses (DEFAULT_PERMISSION_CLASSES s);
     "renderer_classes" := ARenderers (DEFAULT_RENDERER_CLASSES s) ]}.

Definition GenericAPIView : ClassDict :=
  {[ "queryset" := ANone;
     "serializer_class" := ANone;
     "get_queryset" := AMethod def.GenericAPIView_get_queryset;
     "get_serializer_class" := AMethod def.GenericAPIView_get_serializer_class;
     "get_object" := AMethod def.GenericAPIView_get_object ]}.

Definition CreateModelMixin : ClassDict :=
  {[ "create" := AMethod def.CreateModelMixin_create;
     "perform_create" := AMethod def.CreateModelMixin_perform_create ]}.

Definition ListModelMixin : ClassDict :=
  {[ "list" := AMethod def.ListModelMixin_list ]}.

Definition RetrieveModelMixin : ClassDict :=
  {[ "retrieve" := AMethod def.RetrieveModelMixin_retrieve ]}.

Definition UpdateModelMixin : ClassDict :=
  {[ "update" := AMethod def.UpdateModelMixin_update;
     "partial_update" := AMethod def.UpdateModelMixin_partial_update;
     "perform_update" := AMethod def.UpdateModelMixin_perform_update ]}.

Definition DestroyModelMixin : ClassDict :=
  {[ "destroy" := AMethod def.DestroyModelMixin_destroy;
     "perform_destroy" := AMethod def.DestroyModelMixin_perform_destroy ]}.

Definition ViewSetMixin : ClassDict := ∅.
Definition GenericViewSet : ClassDict := ∅.
Definition ModelViewSet : ClassDict := ∅.

Definition CreateAPIView : ClassDict :=
  {[ "post" := AMethod def.CreateAPIView_post ]}.

Definition RetrieveUpdateAPIView : ClassDict :=
  {[ "get" := AMethod def.RetrieveUpdateAPIView_get;
     "put" := AMethod def.RetrieveUpdateAPIView_put;
     "patch" := AMethod def.RetrieveUpdateAPIView_patch ]}.

Definition ObtainAuthToken : ClassDict :=
  {[ "permission_classes" := APermClasses [];
     "serializer_class" := ASerializerClass AuthTokenSerializer;
     "renderer_classes" := ARenderers [JSONRenderer];
     "post" := AMethod def.ObtainAuthToken_post ]}.

(** [routers.APIRootView]; the router binds [api_root_dict] on the
    instance. *)
Definition APIRootView : ClassDict :=
  {[ "api_root_dict" := ANone;
     "get" := AMethod def.APIRootView_get ]}.

(** Method resolution orders of the classes the views derive from. *)
Definition GenericAPIView_mro (s : Settings) : list ClassDict :=
  [GenericAPIView; APIView s].

Definition GenericViewSet_mro (s : Settings) : list ClassDict :=
  GenericViewSet :: ViewSetMixin :: GenericAPIView_mro s.

Definition ModelViewSet_mro (s : Settings) : list ClassDict :=
  ModelViewSet :: CreateModelMixin :: RetrieveModelMixin :: UpdateModelMixin
    :: DestroyModelMixin :: ListModelMixin :: GenericViewSet_mro s.

Definition CreateAPIView_mro (s : Settings) : list ClassDict :=
  CreateAPIView :: CreateModelMixin :: GenericAPIView_mro s.

Definition RetrieveUpdateAPIView_mro (s : Settings) : list ClassDict :=
  RetrieveUpdateAPIView :: RetrieveModelMixin :: UpdateModelMixin
    :: GenericAPIView_mro s.

Definition ObtainAuthToken_mro (s : Settings) : list ClassDict :=
  [ObtainAuthToken; APIView s].

Definition APIRootView_mro (s : Settings) : list ClassDict :=
  [APIRootView; APIView s].

End rest_framework.

(** ** app/recipe/views.py *)

Module RecipeViewSet.

(** [return self.queryset.filter(user=self.request.user).order_by("-id")] *)
Definition get_queryset (self : View) : option QuerySet :=
  q ← self_queryset self;
  q' ← filter_user (request_user self) q;
  Some (order_by "-id" q').

Definition get_serializer_class (self : View) : option SerializerClass :=
  if action_is self "list" then Some RecipeSerializer
  else if action_in self ["retrieve"; "update"; "partial_update"]
       then Some RecipeDetailSerializer
  else self_serializer_class self.

(** [serializer.save(user = self.request.user)] *)
Definition perform_create (self : View) (serializer : Serializer)
  : M Serializer :=
  save serializer {[ "user" := VUser (request_user self) ]}.

Definition class_dict : ClassDict :=
  {[ "serializer_class" := ASerializerClass RecipeSerializer;
     "queryset" := AQuerySet (objects_all Recipe);
     "authentication_classes" := AAuthClasses [TokenAuthentication];
     "permission_classes" := APermClasses [IsAuthenticated];
     "get_queryset" := AMethod def.RecipeViewSet_get_queryset;
     "get_serializer_class" := AMethod def.RecipeViewSet_get_serializer_class;
     "perform_create" := AMethod def.RecipeViewSet_perform_create ]}.

(** [class RecipeViewSet(viewsets.ModelViewSet)] *)
Definition mro (s : Settings) : list ClassDict :=
  class_dict :: rest_framework.ModelViewSet_mro s.

End RecipeViewSet.

Module TagViewSet.

(** [return self.queryset.filter(user=self.request.user).order_by("-name")] *)
Definition get_queryset (self : View) : option QuerySet :=
  q ← self_queryset self;
  q' ← filter_user (request_user self) q;
  Some (order_by "-name" q').

Definition class_dict : ClassDict :=
  {[ "serializer_class" := ASerializerClass TagSerializer;
     "queryset" := AQuerySet (objects_all Tag);
     "authentication_class" := AAuthClasses [TokenAuthentication];
     "permission_classes" := APermClasses [IsAuthenticated];
     "get_queryset" := AMethod def.TagViewSet_get_queryset ]}.

(** [class TagViewSet(mixins.UpdateModelMixin, mixins.DestroyModelMixin,
    mixins.ListModelMixin, viewsets.GenericViewSet)] *)
Definition mro (s : Settings) : list ClassDict :=
  class_dict :: rest_framework.UpdateModelMixin
    :: rest_framework.DestroyModelMixin :: rest_framework.ListModelMixin
    :: rest_framework.GenericViewSet_mro s.

End TagViewSet.

Module IngredientViewSet.

(** [return self.queryset.filter(user=self.request.user).order_by("-name")] *)
Definition get_query (self : View) : option QuerySet :=
  q ← self_queryset self;
  q' ← filter_user (request_user self) q;
  Some (order_by "-name" q').

Definition class_dict : ClassDict :=
  {[ "serializer_class" := ASerializerClass IngredientSerializer;
     "queryset" := AQuerySet (objects_all Ingredient);
     "authentication_classes" := AAuthClasses [TokenAuthentication];
     "permission_classes" := APermClasses [IsAuthenticated];
     "get_query" := AMethod def.IngredientViewSet_get_query ]}.

(** [class IngredientViewSet(mixins.ListModelMixin, mixins.UpdateModelMixin,
    mixins.DestroyModelMixin, viewsets.GenericViewSet)] *)
Definition mro (s : Settings) : list ClassDict :=
  class_dict :: rest_framework.ListModelMixin
    :: rest_framework.UpdateModelMixin :: rest_framework.DestroyModelMixin
    :: rest_framework.GenericViewSet_mro s.

End IngredientViewSet.

(** ** app/user/views.py *)

Module CreateUserViews.

Definition class_dict : ClassDict :=
  {[ "serializer_class" := ASerializerClass UserSerializer;
     "permission_classes" := APermClasses [AllowAny] ]}.

(** [class CreateUserViews(generics.CreateAPIView)] *)
Definition mro (s : Settings) : list ClassDict :=
  class_dict :: rest_framework.CreateAPIView_mro s.

End CreateUserViews.

Module CreateTokenView.

(** [renderer_classes = api_settings.DEFAULT_RENDERER_CLASSES] *)
Definition class_dict (s : Settings) : ClassDict :=
  {[ "permission_classes" := APermClasses [AllowAny];
     "serializer_class" := ASerializerClass AuthTokenSerializer;
     "renderer_classes" := ARenderers (DEFAULT_RENDERER_CLASSES s) ]}.

(** [class CreateTokenView(ObtainAuthToken)] *)
Definition mro (s : Settings) : list ClassDict :=
  class_dict s :: rest_framework.ObtainAuthToken_mro s.

End CreateTokenView.

Module ManageUserView.

(** [return self.request.user] *)
Definition get_object (self : View) : Instance :=
  UserObject (request_user self).

Definition class_dict : ClassDict :=
  {[ "serializer_class" := ASerializerClass UserSerializer;
     "authentication_classes" := AAuthClasses [TokenAuthentication];
     "permission_classes" := APermClasses [IsAuthenticated];
     "get_object" := AMethod def.ManageUserView_get_object ]}.

(** [class ManageUserView(generics.RetrieveUpdateAPIView)] *)
Definition mro (s : Settings) : list ClassDict :=
  class_dict :: rest_framework.RetrieveUpdateAPIView_mro s.

End ManageUserView.

(** ** The framework's methods and the request dispatch *)

Module GenericAPIView.

(** [queryset = self.queryset; return queryset.all()] *)
Definition get_queryset (self : View) : option QuerySet :=
  q ← self_queryset self;
  Some (all q).

(** [return self.serializer_class] *)
Definition get_serializer_class (self : View) : option SerializerClass :=
  self_serializer_class self.

(** [self.get_queryset()], by the name [get_queryset]. *)
Definition call_get_queryset (self : View) : option QuerySet :=
  match getattr (attrs self) "get_queryset" with
  | Some (AMethod def.RecipeViewSet_get_queryset) =>
      RecipeViewSet.get_queryset self
  | Some (AMethod def.TagViewSet_get_queryset) =>
      TagViewSet.get_queryset self
  | Some (AMethod def.IngredientViewSet_get_query) =>
      IngredientViewSet.get_query self
  | Some (AMethod def.GenericAPIView_get_queryset) =>
      get_queryset self
  | _ => None
  end.

(** [self.get_serializer_class()] *)
Definition call_get_serializer_class (self : View) : option SerializerClass :=
  match getattr (attrs self) "get_serializer_class" with
  | Some (AMethod def.RecipeViewSet_get_serializer_class) =>
      RecipeViewSet.get_serializer_class self
  | Some (AMethod def.GenericAPIView_get_serializer_class) =>
      get_serializer_class self
  | _ => None
  end.

(** [obj = get_object_or_404(self.get_queryset(), pk=self.kwargs["pk"])] *)
Definition get_object (self : View) : M Instance :=
  q ← try (call_get_queryset self);
  pk ← try (kwargs_pk self);
  st ← get_store;
  match get_by_pk st q pk with
  | Some r => mret (ModelInstance (qs_model q) r)
  | None => raise Http404
  end.

(** [self.get_object()] *)
Definition call_get_object (self : View) : M Instance :=
  match getattr (attrs self) "get_object" with
  | Some (AMethod def.GenericAPIView_get_object) => get_object self
  | Some (AMethod def.ManageUserView_get_object) =>
      mret (ManageUserView.get_object self)
  | _ => raise ServerError
  end.

(** [self.get_serializer(instance, data=..., partial=...)] *)
Definition get_serializer (self : View) (inst : option Instance)
    (data : option Dict) (partial : bool) : M Serializer :=
  c ← try (call_get_serializer_class self);
  mret {| ser_class := c; instance := inst; initial_data := data;
          partial := partial; validated_data := None |}.

End GenericAPIView.

(** [serializer.is_valid(raise_exception=True)] *)
Definition is_valid (P : Project) (ser : Serializer) : M Serializer :=
  d ← try (initial_data ser);
  st ← get_store;
  match run_validation P (ser_class ser) (partial ser) st d with
  | Some vd =>
      mret {| ser_class := ser_class ser; instance := instance ser;
              initial_data := initial_data ser; partial := partial ser;
              validated_data := Some vd |}
  | None => raise ValidationError
  end.

Definition Response_ (status : nat) (d : Data) : M Response :=
  mret {| status_code := status; response_data := d |}.

Module mixins.
Import GenericAPIView.

(** [CreateModelMixin.perform_create]: [serializer.save()] *)
Definition perform_create (self : View) (serializer : Serializer)
  : M Serializer :=
  save serializer ∅.

(** [UpdateModelMixin.perform_update]: [serializer.save()] *)
Definition perform_update (self : View) (serializer : Serializer)
  : M Serializer :=
  save serializer ∅.

(** [DestroyModelMixin.perform_destroy]: [instance.delete()] *)
Definition perform_destroy (self : View) (i : Instance) : M unit :=
  delete_instance i.

Definition call_perform_create (self : View) (serializer : Serializer)
  : M Serializer :=
  match getattr (attrs self) "perform_create" with
  | Some (AMethod def.RecipeViewSet_perform_create) =>
      RecipeViewSet.perform_create self serializer
  | Some (AMethod def.CreateModelMixin_perform_create) =>
      perform_create self serializer
  | _ => raise ServerError
  end.

Definition call_perform_update (self : View) (serializer : Serializer)
  : M Serializer :=
  match getattr (attrs self) "perform_update" with
  | Some (AMethod def.UpdateModelMixin_perform_update) =>
      perform_update self serializer
  | _ => raise ServerError
  end.

Definition call_perform_destroy (self : View) (i : Instance) : M unit :=
  match getattr (attrs self) "perform_destroy" with
  | Some (AMethod def.DestroyModelMixin_perform_destroy) =>
      perform_destroy self i
  | _ => raise ServerError
  end.

(** [CreateModelMixin.create] *)
Definition create (P : Project) (self : View) : M Response :=
  serializer ← get_serializer self None (Some (data (request self))) false;
  serializer ← is_valid P serializer;
  serializer ← call_perform_create self serializer;
  d ← serializer_data serializer;
  Response_ HTTP_201_CREATED (One (ser_class serializer) d).

(** [ListModelMixin.list] *)
Definition list (self : View) : M Response :=
  queryset ← try (call_get_queryset self);
  c ← try (call_get_serializer_class self);
  st ← get_store;
  Response_ HTTP_200_OK (Many c (evaluate st queryset)).

(** [RetrieveModelMixin.retrieve] *)
Definition retrieve (self : View) : M Response :=
  i ← call_get_object self;
  serializer ← get_serializer self (Some i) None false;
  d ← serializer_data serializer;
  Response_ HTTP_200_OK (One (ser_class serializer) d).

(** [UpdateModelMixin.update] *)
Definition update (P : Project) (self : View) (partial : bool) : M Response :=
  i ← call_get_object self;
  serializer ←
    get_serializer self (Some i) (Some (data (request self))) partial;
  serializer ← is_valid P serializer;
  serializer ← call_perform_update self serializer;
  d ← serializer_data serializer;
  Response_ HTTP_200_OK (One (ser_class serializer) d).

Definition call_update (P : Project) (self : View) (partial : bool)
  : M Response :=
  match getattr (attrs self) "update" with
  | Some (AMethod def.UpdateModelMixin_update) => update P self partial
  | _ => raise ServerError
  end.

(** [UpdateModelMixin.partial_update]:
    [kwargs["partial"] = True; return self.update(...)] *)
Definition partial_update (P : Project) (self : View) : M Response :=
  call_update P self true.

(** [DestroyModelMixin.destroy] *)
Definition destroy (self : View) : M Response :=
  i ← call_get_object self;
  call_perform_destroy self i;;
  Response_ HTTP_204_NO_CONTENT NoData.

End mixins.

Module ObtainAuthToken.

(** The key of the token of a user, if the user has one. *)
Definition token_of_user (st : Store) (u : nat) : option string :=
  fst <$> List.find (fun kv => Nat.eqb (snd kv) u) (map_to_list (tokens st)).

(** [ObtainAuthToken.post]: validate the credentials, then
    [Token.objects.get_or_create(user=user)] and answer with the key. *)
Definition post (P : Project) (self : View) : M Response :=
  c ← try (self_serializer_class self);
  serializer ←
    is_valid P {| ser_class := c; instance := None;
                  initial_data := Some (data (request self));
                  partial := false; validated_data := None |};
  vd ← try (validated_data serializer);
  match vd !! "user" with
  | Some (VUser (User u)) =>
      st ← get_store;
      match token_of_user st u with
      | Some key => Response_ HTTP_200_OK (TokenKey key)
      | None =>
          let key := generate_key P st in
          match tokens st !! key with
          | Some _ => raise ServerError
          | None =>
              put_store (set_tokens (<[key := u]> (tokens st)) st);;
              Response_ HTTP_200_OK (TokenKey key)
          end
      end
  | _ => raise ServerError
  end.

End ObtainAuthToken.

Module APIRootView.

(** [APIRootView.get]: a link for every entry of [api_root_dict] whose URL
    name [reverse] finds. *)
Definition get (self : View) : M Response :=
  match getattr (attrs self) "api_root_dict" with
  | Some (ARootDict d) =>
      Response_ HTTP_200_OK
        (Links (List.map fst (List.filter (fun e => snd e) d)))
  | _ => raise ServerError
  end.

End APIRootView.

Module APIView.

(** The call of a handler found under the name of the HTTP method. *)
Definition run_handler (P : Project) (h : def.Code) (self : View)
  : M Response :=
  match h with
  | def.CreateModelMixin_create => mixins.create P self
  | def.ListModelMixin_list => mixins.list self
  | def.RetrieveModelMixin_retrieve => mixins.retrieve self
  | def.UpdateModelMixin_update => mixins.update P self false
  | def.UpdateModelMixin_partial_update => mixins.partial_update P self
  | def.DestroyModelMixin_destroy => mixins.destroy self
  (* CreateAPIView.post: return self.create(...) *)
  | def.CreateAPIView_post =>
      match getattr (attrs self) "create" with
      | Some (AMethod def.CreateModelMixin_create) => mixins.create P self
      | _ => raise ServerError
      end
  (* RetrieveUpdateAPIView.get: return self.retrieve(...) *)
  | def.RetrieveUpdateAPIView_get =>
      match getattr (attrs self) "retrieve" with
      | Some (AMethod def.RetrieveModelMixin_retrieve) => mixins.retrieve self
      | _ => raise ServerError
      end
  (* RetrieveUpdateAPIView.put: return self.update(...) *)
  | def.RetrieveUpdateAPIView_put => mixins.call_update P self false
  (* RetrieveUpdateAPIView.patch: return self.partial_update(...) *)
  | def.RetrieveUpdateAPIView_patch =>
      match getattr (attrs self) "partial_update" with
      | Some (AMethod def.UpdateModelMixin_partial_update) =>
          mixins.partial_update P self
      | _ => raise ServerError
      end
  | def.ObtainAuthToken_post => ObtainAuthToken.post P self
  | def.APIRootView_get => APIRootView.get self
  | _ => raise ServerError
  end.

(** [self.authentication_classes] and [self.permission_classes] *)
Definition authentication_classes (a : list ClassDict)
  : option (list AuthClass) :=
  match getattr a "authentication_classes" with
  | Some (AAuthClasses l) => Some l
  | _ => None
  end.

Definition permission_classes (a : list ClassDict)
  : option (list PermClass) :=
  match getattr a "permission_classes" with
  | Some (APermClasses l) => Some l
  | _ => None
  end.

(** [APIView.initial] followed by the handler: authenticate, check the
    permissions, then call the method named after the HTTP method, or answer
    that the method is not allowed. *)
Definition run (P : Project) (a : list ClassDict) (act : option string)
    (pk : option nat) (req : Request) (auths : list AuthClass)
    (perms : list PermClass) : M Response :=
  fun st =>
    let authenticators := request_authenticators auths req in
    match _authenticate authenticators st req with
    | inl e => (inl e, st)
    | inr (user, successful) =>
        match check_permissions perms authenticators user successful with
        | inl e => (inl e, st)
        | inr _ =>
            let self := {| attrs := a; request := req; request_user := user;
                           action := act; kwargs_pk := pk |} in
            match getattr a (method_lower (method req)) with
            | Some (AMethod h) => run_handler P h self st
            | _ => (inl MethodNotAllowed, st)
            end
        end
    end.

(** [APIView.dispatch]: exceptions become responses. *)
Definition dispatch (P : Project) (a : list ClassDict) (act : option string)
    (pk : option nat) (req : Request) (st : Store) : Response * Store :=
  match authentication_classes a, permission_classes a with
  | Some auths, Some perms =>
      match run P a act pk req auths perms st with
      | (inl e, st') => (handle_exception auths e, st')
      | (inr r, st') => (r, st')
      end
  | _, _ =>
      ({| status_code := HTTP_500_INTERNAL_SERVER_ERROR;
          response_data := ErrorDetail ServerError |}, st)
  end.

(** [self.renderer_classes] *)
Definition renderer_classes (a : list ClassDict)
  : option (list RendererClass) :=
  match getattr a "renderer_classes" with
  | Some (ARenderers l) => Some l
  | _ => None
  end.

(** [DefaultContentNegotiation.filter_renderers]: the renderers of the
    format the URL asks for. *)
Definition filter_renderers (renderers : list RendererClass)
    (format : string) : list RendererClass :=
  List.filter (fun r => String.eqb (renderer_format r) format) renderers.

(** [APIView.dispatch] of a URL with a format suffix: [initial] begins with
    the content negotiation, which raises [Http404] when no renderer of the
    view has the format, before the request is authenticated; otherwise the
    request goes on as without the suffix. *)
Definition dispatch_format (P : Project) (a : list ClassDict)
    (act : option string) (pk : option nat) (format : string)
    (req : Request) (st : Store) : Response * Store :=
  match authentication_classes a, renderer_classes a with
  | Some auths, Some renderers =>
      match filter_renderers renderers format with
      | [] => (handle_exception auths Http404, st)
      | _ => dispatch P a act pk req st
      end
  | _, _ =>
      ({| status_code := HTTP_500_INTERNAL_SERVER_ERROR;
          response_data := ErrorDetail ServerError |}, st)
  end.

(** [View.as_view()] of a generic view: nothing is bound on the instance
    and there is no action. *)
Definition as_view (P : Project) (cls : list ClassDict) (req : Request)
    (st : Store) : Response * Store :=
  dispatch P (∅ :: cls) None None req st.

End APIView.

Module ViewSetMixin.

(** The instance dictionary [as_view(actions)] fills: each HTTP method of
    the action map is bound to the method of the action. *)
Definition bind_actions (cls : list ClassDict)
    (actions : list (string * string)) : ClassDict :=
  foldr (fun ma d =>
           match getattr cls (snd ma) with
           | Some h => <[fst ma := h]> d
           | None => d
           end) ∅ actions.

(** [self.action = self.action_map.get(request.method.lower())] *)
Definition action_of (actions : list (string * string)) (req : Request)
  : option string :=
  (list_to_map actions : gmap string string) !! method_lower (method req).

Definition as_view (P : Project) (cls : list ClassDict)
    (actions : list (string * string)) (pk : option nat) (req : Request)
    (st : Store) : Response * Store :=
  APIView.dispatch P (bind_actions cls actions :: cls)
    (action_of actions req) pk req st.

(** The same view called with the [format] keyword of the URL. *)
Definition as_view_format (P : Project) (cls : list ClassDict)
    (actions : list (string * string)) (pk : option nat) (format : string)
    (req : Request) (st : Store) : Response * Store :=
  APIView.dispatch_format P (bind_actions cls actions :: cls)
    (action_of actions req) pk format req st.

End ViewSetMixin.

Module routers.

(** The routes [DefaultRouter] has from [SimpleRouter]: the list route and
    the detail route, each with its map from HTTP method to action. *)
Definition list_route : list (string * string) :=
  [("get", "list"); ("post", "create")].

Definition detail_route : list (string * string) :=
  [("get", "retrieve"); ("put", "update"); ("patch", "partial_update");
   ("delete", "destroy")].

(** [get_method_map]: only the actions the viewset has are bound. *)
Definition get_method_map (viewset : list ClassDict)
    (method_map : list (string * string)) : list (string * string) :=
  List.filter (fun ma => hasattr viewset (snd ma)) method_map.

Definition not_found : Response :=
  {| status_code := HTTP_404_NOT_FOUND; response_data := ErrorDetail Http404 |}.

(** The format of a suffix pattern: [[a-z0-9]+]. *)
Definition format_char (c : ascii) : bool :=
  let n := nat_of_ascii c in
  (((97 <=? n)%nat && (n <=? 122)%nat) || ((48 <=? n)%nat && (n <=? 57)%nat))%bool.

Fixpoint format_chars (s : string) : bool :=
  match s with
  | EmptyString => true
  | String c s' => format_char c && format_chars s'
  end.

Definition format_word (s : string) : bool :=
  negb (String.eqb s "") && format_chars s.

(** A path segment [name.format] split at its first dot. *)
Fixpoint split_suffix (s : string) : option (string * string) :=
  match s with
  | EmptyString => None
  | String c s' =>
      if Ascii.eqb c "." then Some (EmptyString, s')
      else match split_suffix s' with
           | Some (name, format) => Some (String c name, format)
           | None => None
           end
  end.

(** [DefaultRouter.get_api_root_view]: [api_root_dict] names the list route
    of every registered prefix; [reverse] finds the routes that were
    generated. *)
Definition api_root_dict (registry : list (string * list ClassDict))
  : list (string * bool) :=
  List.map (fun e =>
              (fst e,
               match get_method_map (snd e) list_route with
               | [] => false
               | _ => true
               end)) registry.

Definition APIRootView (s : Settings)
    (registry : list (string * list ClassDict)) : list ClassDict :=
  {[ "api_root_dict" := ARootDict (api_root_dict registry) ]}
    :: rest_framework.APIRootView_mro s.

(** The root URL of [DefaultRouter]. *)
Definition api_root (P : Project)
    (registry : list (string * list ClassDict)) (req : Request) (st : Store)
  : Response * Store :=
  APIView.dispatch P (APIRootView (settings P) registry) None None req st.

(** The URLs [format_suffix_patterns] adds to those of the routes and of
    the root: [name.format] and [name/pk.format], and [.format] for the
    root. *)
Definition resolve_format (P : Project)
    (registry : list (string * list ClassDict)) (name : string)
    (pk : option nat) (format : string) (req : Request) (st : Store)
  : Response * Store :=
  if negb (format_word format) then (not_found, st)
  else
    match List.find (fun e => String.eqb (fst e) name) registry with
    | None =>
        match pk with
        | None =>
            if String.eqb name "" then
              APIView.dispatch_format P (APIRootView (settings P) registry)
                None None format req st
            else (not_found, st)
        | Some _ => (not_found, st)
        end
    | Some (_, viewset) =>
        let route := match pk with
                     | None => list_route
                     | Some _ => detail_route
                     end in
        match get_method_map viewset route with
        | [] => (not_found, st)
        | mapping =>
            ViewSetMixin.as_view_format P viewset mapping pk format req st
        end
    end.

(** The view a URL [prefix/] or [prefix/pk/] resolves to; a route none of
    whose actions the viewset has is not generated.  A segment that is no
    registered prefix may still be a prefix with a format suffix. *)
Definition resolve (P : Project) (registry : list (string * list ClassDict))
    (prefix : string) (pk : option nat) (req : Request) (st : Store)
  : Response * Store :=
  match List.find (fun e => String.eqb (fst e) prefix) registry with
  | None =>
      match pk, split_suffix prefix with
      | None, Some (name, format) =>
          resolve_format P registry name None format req st
      | _, _ => (not_found, st)
      end
  | Some (_, viewset) =>
      let route := match pk with
                   | None => list_route
                   | Some _ => detail_route
                   end in
      match get_method_map viewset route with
      | [] => (not_found, st)
      | mapping => ViewSetMixin.as_view P viewset mapping pk req st
      end
  end.

End routers.

(** ** app/recipe/urls.py *)

Module recipe_urls.

(** [router = DefaultRouter()], then
    [router.register("recipes", views.RecipeViewSet)], and so on. *)
Definition router (s : Settings) : list (string * list ClassDict) :=
  [("recipes", RecipeViewSet.mro s);
   ("tags", TagViewSet.mro s);
   ("ingredients", IngredientViewSet.mro s)].

(** [path("", include(router.urls))] *)
Definition urlpatterns (P : Project) (prefix : string) (pk : option nat)
    (req : Request) (st : Store) : Response * Store :=
  routers.resolve P (router (settings P)) prefix pk req st.

Definition urlpatterns_format (P : Project) (prefix : string)
    (pk : option nat) (format : string) (req : Request) (st : Store)
  : Response * Store :=
  routers.resolve_format P (router (settings P)) prefix pk format req st.

Definition urlpatterns_root (P : Project) (req : Request) (st : Store)
  : Response * Store :=
  routers.api_root P (router (settings P)) req st.

End recipe_urls.

(** ** The endpoints *)

(** A URL of the API: [/api/recipe/<prefix>/], [/api/recipe/<prefix>/<pk>/]
    or [/api/user/<name>/], where [prefix] and [name] are one path segment
    (no slash); the root [/api/recipe/] of the router; and the URLs with a
    format suffix, [/api/recipe/<prefix>.<format>] and
    [/api/recipe/<prefix>/<pk>.<format>]. *)
Inductive Url : Type :=
  | recipe_url (prefix : string) (pk : option nat)
  | user_url (name : string)
  | recipe_root
  | recipe_format_url (prefix : string) (pk : option nat) (format : string).

(** Modelled from the spec: [user/urls.py] and the project's [urls.py] are
    not among the sources; the spec lists [/api/user/create/],
    [/api/user/token/] and [/api/user/me/] for the three user views and
    [/api/recipe/] for the router. *)
Definition handle (P : Project) (url : Url) (req : Request) (st : Store)
  : Response * Store :=
  match url with
  | recipe_url prefix pk => recipe_urls.urlpatterns P prefix pk req st
  | recipe_root => recipe_urls.urlpatterns_root P req st
  | recipe_format_url prefix pk format =>
      recipe_urls.urlpatterns_format P prefix pk format req st
  | user_url name =>
      if String.eqb name "create" then
        APIView.as_view P (CreateUserViews.mro (settings P)) req st
      else if String.eqb name "token" then
        APIView.as_view P (CreateTokenView.mro (settings P)) req st
      else if String.eqb name "me" then
        APIView.as_view P (ManageUserView.mro (settings P)) req st
      else (routers.not_found, st)
  end.

(** ** Vocabulary of the properties *)

(** Descending order by a column: each row's value is no less than the
    next row's. *)
Definition descending (col : string) (rows : list Row) : Prop :=
  Sorted (fun a b => value_leb (column col b) (column col a) = true) rows.

(** The rows of a table owned by a user, in storage order. *)
Definition owned_by (u : nat) (rows : list Row) : list Row :=
  List.filter (fun r => Nat.eqb (row_user r) u) rows.

(** The request is authenticated as user [u] by a view whose authentication
    classes are [auths]. *)
Definition authenticated_as (auths : list AuthClass) (st : Store)
    (req : Request) (u : nat) : Prop :=
  _authenticate (request_authenticators auths req) st req = inr (User u, true).

(** The request carries no credentials: no Authorization header, no session
    user, no forced user. *)
Definition no_credentials (req : Request) : Prop :=
  authorization req = [] /\ session_user req = None
  /\ force_auth_user req = None.

(** A request whose only credential is the header [Authorization: Token key]. *)
Definition token_request (m : HttpMethod) (key : string) (d : Dict) : Request :=
  {| method := m; authorization := ["Token"; key]; session_user := None;
     csrf_ok := false; force_auth_user := None; data := d |}.

(** A request without credentials. *)
Definition anonymous_request (m : HttpMethod) (d : Dict) : Request :=
  {| method := m; authorization := []; session_user := None;
     csrf_ok := false; force_auth_user := None; data := d |}.

(** A request of the test client after [force_authenticate(user)]. *)
Definition forced_request (m : HttpMethod) (u : nat) (d : Dict) : Request :=
  {| method := m; authorization := []; session_user := None;
     csrf_ok := false; force_auth_user := Some u; data := d |}.

(** A word without a slash and without a dot: one path segment that has no
    format suffix. *)
Fixpoint plain_segment (s : string) : bool :=
  match s with
  | EmptyString => true
  | String c s' =>
      negb (Ascii.eqb c "/") && negb (Ascii.eqb c ".") && plain_segment s'
  end.

(** The status of the response to a request. *)
Definition status_of (r : Response * Store) : nat := status_code (fst r).

(** The rows of a list response. *)
Definition rows_of (r : Response) : list Row :=
  match response_data r with
  | Many _ rows => rows
  | _ => []
  end.

Definition listed (r : Response * Store) : list Row := rows_of (fst r).

(** [len(res.data)] and [res.data[i]['name']] of a list response. *)
Definition names (rows : list Row) : list Value :=
  List.map (column "name") rows.

(** ** Example data *)

(** A project on the framework's default settings. *)
Definition stock_project
    (v : SerializerClass -> bool -> Store -> Dict -> option Dict)
    (g : Store -> string) : Project :=
  {| settings := rest_framework_defaults; run_validation := v;
     generate_key := g |}.

(** Serializers that accept every body as it is, and a constant key. *)
Definition example_project : Project :=
  stock_project (fun _ _ _ d => Some d) (fun _ => "t3").

Definition named (pk owner : nat) (name : string) : Row :=
  {| row_id := pk; row_user := owner;
     row_fields := {[ "name" := VStr name ]} |}.

Definition active : UserRow := {| is_active := true; user_fields := ∅ |}.

(** Two users, each with a token; user 1 owns the ingredients Kale and Salt
    (created in this order, as in [test_retrieve_ingredients]) and user 2
    one more; likewise for tags and recipes.  Nothing was deleted so far:
    every sequence stands right after the last id. *)
Definition example_store : Store :=
  {| users := {[ 1 := active; 2 := active ]};
     tokens := {[ "t1" := 1; "t2" := 2 ]};
     basic_credentials := ∅;
     recipes := [named 1 1 "Soup"; named 2 2 "Cake"; named 3 1 "Stew"];
     tags := [named 1 1 "Dinner"; named 2 2 "Vegan"];
     ingredients :=
       [named 1 1 "Kale"; named 2 1 "Salt"; named 3 2 "other ingredient"];
     user_id_seq := 3; recipe_id_seq := 4; tag_id_seq := 3;
     ingredient_id_seq := 4 |}.

(** The same database before any ingredient is stored. *)
Definition empty_pantry : Store := set_table Ingredient [] example_store.


(** The claim that a POST of [{name: "Kale"}] to the ingredient list creates
    the ingredient and the next list response of the user shows it. *)
Definition post_kale_creates (P : Project) (st : Store) (key : string)
    (u : nat) : Prop :=
  let posted :=
    handle P (recipe_url "ingredients" None)
      (token_request POST key {[ "name" := VStr "Kale" ]}) st in
  status_of posted = HTTP_201_CREATED /\
  exists r,
    In r (listed (handle P (recipe_url "ingredients" None)
                    (token_request GET key ∅) (snd posted)))
    /\ row_user r = u /\ row_fields r !! "name" = Some (VStr "Kale").

(** ** app/recipe/tests/test_ingredient_api.py *)

Module test_ingredient_api.

(** [reverse('recipe:ingredient-list')] *)
Definition INGREDIENTS_URL : Url := recipe_url "ingredients" None.

(** The empty test database. *)
Definition empty_database : Store :=
  {| users := ∅; tokens := ∅; basic_credentials := ∅;
     recipes := []; tags := []; ingredients := [];
     user_id_seq := 1; recipe_id_seq := 1; tag_id_seq := 1;
     ingredient_id_seq := 1 |}.

(** [create_user(email, password)]: the new user and the database. *)
Definition create_user (email password : string) (st : Store) : nat * Store :=
  match create_user_row
          {[ "email" := VStr email; "password" := VStr password ]} st with
  | (inr pk, st') => (pk, st')
  | (inl _, st') => (0, st')
  end.

(** [Ingredient.objects.create(user=user, name=name)] *)
Definition Ingredient_objects_create (user : nat) (name : string)
    (st : Store) : option Row * Store :=
  match objects_create Ingredient
          {[ "user" := VUser (User user); "name" := VStr name ]} st with
  | (inr r, st') => (Some r, st')
  | (inl _, st') => (None, st')
  end.

(** [PublicIngredientsApiTests.test_auth_required]: the response [res]. *)
Definition test_auth_required (P : Project) : Response :=
  fst (handle P INGREDIENTS_URL (anonymous_request GET ∅) empty_database).

(** [PrivateIngredientsApiTests.setUp]: [self.user] and the database. *)
Definition setUp : nat * Store :=
  create_user "user@example.com" "testpass" empty_database.

(** [test_retrieve_ingredients]: the response [res] and the query set
    [ingredients] whose serialization the test compares [res.data] with. *)
Definition test_retrieve_ingredients (P : Project) : Response * list Row :=
  let '(user, st) := setUp in
  let '(_, st) := Ingredient_objects_create user "Kale" st in
  let '(_, st) := Ingredient_objects_create user "Salt" st in
  let res := fst (handle P INGREDIENTS_URL (forced_request GET user ∅) st) in
  let ingredients := evaluate st (order_by "-name" (objects_all Ingredient)) in
  (res, ingredients).

(** [test_ingredients_limited_to_user]: the response [res] and the
    [ingredient] of [self.user]. *)
Definition test_ingredients_limited_to_user (P : Project)
  : Response * option Row :=
  let '(user, st) := setUp in
  let '(user2, st) := create_user "user2@example.com" "testpass" st in
  let '(_, st) := Ingredient_objects_create user2 "other ingredient" st in
  let '(ingredient, st) := Ingredient_objects_create user "Onion" st in
  let res := fst (handle P INGREDIENTS_URL (forced_request GET user ∅) st) in
  (res, ingredient).

End test_ingredient_api.

(** ** Vocabulary of the further properties *)

(** The ids of a table are unique (the primary key). *)
Definition unique_ids (rows : list Row) : Prop :=
  List.NoDup (List.map row_id rows).

(** What one request of user [u] can do to a table: nothing, add a row of
    [u] under an id above the stored ones, replace a row of [u] by a row of
    the same id, or remove a row of [u]. *)
Inductive table_change (u : nat) (rows : list Row) : list Row -> Prop :=
  | unchanged : table_change u rows rows
  | created (r : Row) :
      row_user r = u -> fresh_id rows <= row_id r ->
      table_change u rows (rows ++ [r])
  | updated (r r' : Row) :
      In r rows -> row_user r = u -> row_id r' = row_id r ->
      table_change u rows
        (List.map (fun x => if Nat.eqb (row_id x) (row_id r') then r' else x)
           rows)
  | deleted (r : Row) :
      In r rows -> row_user r = u ->
      table_change u rows
        (List.filter (fun x => negb (Nat.eqb (row_id x) (row_id r))) rows).

(** * Properties *)

(** ** Sorting and query sets *)

Section Sorting.
Context {A : Type} (le : A -> A -> bool).

Lemma insert_sorted_perm (x : A) (l : list A) :
  Permutation (insert_sorted le x l) (x :: l).
Proof.
  induction l as [|y l IH]; simpl; [reflexivity|].
  destruct (le x y); [reflexivity|].
  rewrite IH. apply perm_swap.
Qed.

Lemma sort_by_perm (l : list A) : Permutation (sort_by le l) l.
Proof.
  induction l as [|x l IH]; simpl; [reflexivity|].
  rewrite insert_sorted_perm. now constructor.
Qed.

Hypothesis le_total : forall a b, le a b = true \/ le b a = true.

Lemma insert_sorted_hd (x y : A) (l : list A) :
  le y x = true ->
  HdRel (fun a b => le a b = true) y l ->
  HdRel (fun a b => le a b = true) y (insert_sorted le x l).
Proof.
  intros Hyx Hl. destruct l as [|z l]; simpl.
  - now constructor.
  - destruct (le x z); constructor; [assumption|].
    now inversion Hl.
Qed.

Lemma insert_sorted_sorted (x : A) (l : list A) :
  Sorted (fun a b => le a b = true) l ->
  Sorted (fun a b => le a b = true) (insert_sorted le x l).
Proof.
  induction 1 as [|y l Hs IH Hhd]; simpl.
  - repeat constructor.
  - destruct (le x y) eqn:Hxy.
    + constructor; [now constructor|now constructor].
    + constructor; [exact IH|].
      apply insert_sorted_hd; [|exact Hhd].
      destruct (le_total x y) as [H|H]; congruence.
Qed.

Lemma sort_by_sorted (l : list A) :
  Sorted (fun a b => le a b = true) (sort_by le l).
Proof.
  induction l as [|x l IH]; simpl; [constructor|].
  now apply insert_sorted_sorted.
Qed.

End Sorting.

Lemma value_leb_total (a b : Value) :
  value_leb a b = true \/ value_leb b a = true.
Proof.
  destruct a as [s|x|p], b as [t|y|q]; simpl; auto.
  - apply String.leb_total.
  - destruct (Z.leb_spec x y); [auto|right; apply Z.leb_le; lia].
  - destruct (Nat.leb_spec (user_rank p) (user_rank q));
      [auto|right; apply Nat.leb_le; lia].
Qed.

Lemma row_le_total (spec : string) (a b : Row) :
  row_le spec a b = true \/ row_le spec b a = true.
Proof.
  unfold row_le.
  destruct spec as [|c col]; [apply value_leb_total|].
  destruct (Ascii.eqb_spec c "-"%char) as [->|Hc].
  - apply value_leb_total.
  - destruct c as [[] [] [] [] [] [] [] []]; try apply value_leb_total.
Qed.

Lemma evaluate_owner_desc (st : Store) (m : Model) (u : nat) (col : string) :
  let rows :=
    evaluate st {| qs_model := m; qs_user_is := [u];
                   qs_order_by := Some (String "-" col) |} in
  Permutation rows (owned_by u (table m st)) /\ descending col rows.
Proof.
  unfold evaluate, descending, owned_by; simpl. split.
  - rewrite sort_by_perm. apply Permutation_refl'.
    apply List.filter_ext. intros r. unfold matches; simpl.
    now rewrite andb_true_r.
  - apply (sort_by_sorted (row_le (String "-" col))).
    apply row_le_total.
Qed.

Lemma evaluate_all (st : Store) (m : Model) :
  evaluate st (objects_all m) = table m st.
Proof.
  unfold evaluate, objects_all, matches; simpl.
  induction (table m st) as [|r l IH]; simpl; [reflexivity|].
  now rewrite IH.
Qed.

Lemma owned_by_spec (u : nat) (rows : list Row) (r : Row) :
  In r (owned_by u rows) <-> In r rows /\ row_user r = u.
Proof.
  unfold owned_by. rewrite List.filter_In, Nat.eqb_eq. reflexivity.
Qed.

(** ** Symbolic execution of a request *)

(** Attribute lookups on the concrete class dictionaries are evaluated. *)
Ltac fold_settings :=
  repeat match goal with
  | |- context [match ?P with Build_Project s _ _ => s end] =>
      change (match P with Build_Project s _ _ => s end) with (settings P)
  | |- context [match ?s with Build_Settings a _ _ => a end] =>
      change (match s with Build_Settings a _ _ => a end)
        with (DEFAULT_AUTHENTICATION_CLASSES s)
  | |- context [match ?s with Build_Settings _ p _ => p end] =>
      change (match s with Build_Settings _ p _ => p end)
        with (DEFAULT_PERMISSION_CLASSES s)
  | |- context [match ?s with Build_Settings _ _ r => r end] =>
      change (match s with Build_Settings _ _ r => r end)
        with (DEFAULT_RENDERER_CLASSES s)
  end.

Ltac eval_getattr :=
  repeat match goal with
  | |- context [getattr ?a ?n] =>
      let v := eval vm_compute in (getattr a n) in
      replace (getattr a n) with v by (vm_compute; reflexivity)
  end;
  fold_settings.

Ltac unfold_view :=
  unfold GenericAPIView.call_get_queryset,
    GenericAPIView.call_get_serializer_class,
    GenericAPIView.call_get_object, GenericAPIView.get_serializer,
    GenericAPIView.get_queryset, GenericAPIView.get_serializer_class,
    GenericAPIView.get_object,
    mixins.call_perform_create, mixins.call_perform_update,
    mixins.call_perform_destroy, mixins.call_update,
    mixins.perform_create, mixins.perform_update, mixins.perform_destroy,
    APIView.run_handler, mixins.create, mixins.list, mixins.retrieve,
    mixins.update, mixins.partial_update, mixins.destroy,
    RecipeViewSet.get_queryset, RecipeViewSet.get_serializer_class,
    RecipeViewSet.perform_create, TagViewSet.get_queryset,
    IngredientViewSet.get_query, ManageUserView.get_object,
    self_queryset, self_serializer_class,
    APIView.authentication_classes, APIView.permission_classes;
  cbn [attrs request request_user action kwargs_pk].

Ltac unfold_monad :=
  unfold mbind, M_bind, option_bind, bind, mret, M_ret, ret, try, raise,
    get_store, put_store, Response_;
  cbv beta iota.

(** From the URL to [APIView.dispatch] on the view instance. *)
Ltac resolve_url :=
  unfold handle, recipe_urls.urlpatterns, routers.resolve;
  try match goal with
  | |- context [List.find ?f (recipe_urls.router ?s)] =>
      let v := eval cbn in (List.find f (recipe_urls.router s)) in
      change (List.find f (recipe_urls.router s)) with v
  end;
  repeat match goal with
  | |- context [String.eqb ?a ?b] =>
      let v := eval vm_compute in (String.eqb a b) in
      change (String.eqb a b) with v
  end;
  cbv beta iota;
  try match goal with
  | |- context [routers.get_method_map ?v ?r] =>
      let m := eval vm_compute in (routers.get_method_map v r) in
      replace (routers.get_method_map v r) with m by (vm_compute; reflexivity)
  end;
  cbv beta iota;
  unfold ViewSetMixin.as_view, APIView.as_view, APIView.dispatch,
    ViewSetMixin.action_of;
  try match goal with
  | |- context [ViewSetMixin.bind_actions ?c ?a] =>
      let inst := fresh "inst" in
      set (inst := ViewSetMixin.bind_actions c a); vm_compute in inst
  end;
  unfold_view; eval_getattr; cbv beta iota.

(** The action of the request, once its method is known. *)
Ltac eval_action :=
  cbn [method_lower];
  repeat match goal with
  | |- context [@lookup string string _ _ ?k (list_to_map ?l)] =>
      let t := constr:((list_to_map l : gmap string string) !! k) in
      let v := eval vm_compute in t in
      replace t with v by (vm_compute; reflexivity)
  end.

Ltac eval_queryset :=
  unfold filter_user, order_by, all;
  cbn [qs_model qs_user_is qs_order_by].

Ltac eval_tests :=
  unfold action_in; cbn [existsb];
  repeat match goal with
  | |- context [action_is ?s ?a] =>
      let v := eval vm_compute in (action_is s a) in
      change (action_is s a) with v
  end;
  cbn [orb]; cbv beta iota.

Ltac eval_serializer :=
  unfold is_valid, save, serializer_create, serializer_update,
    serializer_data;
  cbn [ser_class instance initial_data partial validated_data Meta_model].

(** The body of a handler, step by step. *)
Ltac exec := repeat (unfold_view; eval_getattr; unfold_monad).

Ltac run := repeat (exec; eval_tests; eval_queryset; eval_serializer).

(** ** Authentication *)

Lemma has_permission_user (perms : list PermClass) (u : nat) :
  forallb (fun p => has_permission p (User u)) perms = true.
Proof. induction perms as [|[] perms IH]; simpl; auto. Qed.

(** An authenticated request passes the permission checks and reaches the
    handler bound to its HTTP method. *)
Lemma run_authenticated (P : Project) (a : list ClassDict)
    (act : option string) (pk : option nat) (req : Request)
    (auths : list AuthClass) (perms : list PermClass) (st : Store) (u : nat) :
  authenticated_as auths st req u ->
  APIView.run P a act pk req auths perms st =
    match getattr a (method_lower (method req)) with
    | Some (AMethod h) =>
        APIView.run_handler P h
          {| attrs := a; request := req; request_user := User u;
             action := act; kwargs_pk := pk |} st
    | _ => (inl MethodNotAllowed, st)
    end.
Proof.
  intros Hauth. unfold APIView.run. rewrite Hauth.
  unfold check_permissions. now rewrite has_permission_user.
Qed.

Lemma force_authenticates (auths : list AuthClass) (st : Store)
    (req : Request) (u : nat) :
  force_auth_user req = Some u -> authenticated_as auths st req u.
Proof.
  intros H. unfold authenticated_as, request_authenticators. now rewrite H.
Qed.

Lemma token_authenticates (st : Store) (m : HttpMethod) (key : string)
    (d : Dict) (u : nat) :
  tokens st !! key = Some u ->
  active_user st u = true ->
  authenticated_as [TokenAuthentication] st (token_request m key d) u.
Proof.
  intros Hk Hu. unfold authenticated_as, request_authenticators; simpl.
  change (lower "Token" =? "token")%string with true. simpl.
  now rewrite Hk, Hu.
Qed.

Lemma no_credentials_anonymous (auths : list AuthClass) (st : Store)
    (req : Request) :
  no_credentials req ->
  _authenticate (request_authenticators auths req) st req
  = inr (AnonymousUser, false).
Proof.
  intros (Ha & Hs & Hf). unfold request_authenticators. rewrite Hf.
  induction auths as [|c auths IH]; simpl; [reflexivity|].
  destruct c; simpl; rewrite ?Ha, ?Hs; exact IH.
Qed.

(** Without credentials a view that requires an authenticated user answers
    with the status of an authentication error. *)
Lemma run_no_credentials (P : Project) (a : list ClassDict)
    (act : option string) (pk : option nat) (req : Request)
    (auths : list AuthClass) (perms : list PermClass) (st : Store) :
  no_credentials req ->
  In IsAuthenticated perms ->
  exists e, APIView.run P a act pk req auths perms st = (inl e, st)
    /\ exception_status auths e = exception_status auths NotAuthenticated.
Proof.
  intros Hno Hin. unfold APIView.run.
  rewrite no_credentials_anonymous by assumption.
  unfold check_permissions.
  assert (forallb (fun p => has_permission p AnonymousUser) perms = false)
    as ->.
  { apply not_true_is_false. intros Hall.
    rewrite forallb_forall in Hall. now specialize (Hall _ Hin). }
  eexists; split; [reflexivity|].
  destruct Hno as (_ & _ & Hf).
  unfold request_authenticators; rewrite Hf.
  destruct auths; reflexivity.
Qed.

(** Authentication reads the user, token and credential tables only. *)
Lemma authenticate_set_table (l : list Authenticator) (m : Model)
    (rows : list Row) (st : Store) (req : Request) :
  _authenticate l (set_table m rows st) req = _authenticate l st req.
Proof.
  induction l as [|[c|u] l IH]; simpl; [reflexivity| |reflexivity].
  replace (authenticate c (set_table m rows st) req)
    with (authenticate c st req) by (destruct c, m; reflexivity).
  now rewrite IH.
Qed.

(** ** The view each URL resolves to *)

(** After [resolve_url], an authenticated request with a known method is
    taken to its handler. *)
Ltac to_handler Hauth Hm :=
  rewrite (run_authenticated _ _ _ _ _ _ _ _ _ Hauth), ?Hm;
  eval_action; eval_getattr; cbv beta iota.

Lemma views_authentication_classes (s : Settings) :
  APIView.authentication_classes (RecipeViewSet.mro s)
    = Some [TokenAuthentication]
  /\ APIView.authentication_classes (IngredientViewSet.mro s)
    = Some [TokenAuthentication]
  /\ APIView.authentication_classes (ManageUserView.mro s)
    = Some [TokenAuthentication]
  /\ APIView.authentication_classes (TagViewSet.mro s)
    = Some (DEFAULT_AUTHENTICATION_CLASSES s).
Proof. repeat split; reflexivity. Qed.

(** ** List responses *)

Lemma recipe_list_response (P : Project) (st : Store) (req : Request)
    (u : nat) :
  authenticated_as [TokenAuthentication] st req u ->
  method req = GET ->
  handle P (recipe_url "recipes" None) req st =
    ({| status_code := HTTP_200_OK;
        response_data :=
          Many RecipeSerializer
            (evaluate st {| qs_model := Recipe; qs_user_is := [u];
                            qs_order_by := Some "-id" |}) |}, st).
Proof.
  intros Hauth Hm. resolve_url. to_handler Hauth Hm.
  unfold APIView.run_handler, mixins.list. exec.
  reflexivity.
Qed.

Lemma tag_list_response (P : Project) (st : Store) (req : Request) (u : nat) :
  authenticated_as (DEFAULT_AUTHENTICATION_CLASSES (settings P)) st req u ->
  method req = GET ->
  handle P (recipe_url "tags" None) req st =
    ({| status_code := HTTP_200_OK;
        response_data :=
          Many TagSerializer
            (evaluate st {| qs_model := Tag; qs_user_is := [u];
                            qs_order_by := Some "-name" |}) |}, st).
Proof.
  intros Hauth Hm. resolve_url. to_handler Hauth Hm.
  unfold APIView.run_handler, mixins.list. exec.
  reflexivity.
Qed.

(** The ingredient list is the whole table in storage order: the class binds
    [get_query], the framework calls [get_queryset]. *)
Lemma ingredient_list_response (P : Project) (st : Store) (req : Request)
    (u : nat) :
  authenticated_as [TokenAuthentication] st req u ->
  method req = GET ->
  handle P (recipe_url "ingredients" None) req st =
    ({| status_code := HTTP_200_OK;
        response_data := Many IngredientSerializer (ingredients st) |}, st).
Proof.
  intros Hauth Hm. resolve_url. to_handler Hauth Hm.
  unfold APIView.run_handler, mixins.list. exec.
  change (ingredients st) with (table Ingredient st).
  rewrite <- evaluate_all. reflexivity.
Qed.

(** The recipe list shows the requester's recipes only, by descending id. *)
Lemma recipe_list_scoped_ordered (P : Project) (st : Store) (req : Request)
    (u : nat) :
  authenticated_as [TokenAuthentication] st req u ->
  method req = GET ->
  let rows := listed (handle P (recipe_url "recipes" None) req st) in
  Permutation rows (owned_by u (recipes st)) /\ descending "id" rows
  /\ forall r, In r rows -> row_user r = u.
Proof.
  intros Hauth Hm. rewrite (recipe_list_response P st req u Hauth Hm).
  unfold listed; cbn [fst response_data].
  destruct (evaluate_owner_desc st Recipe u "id") as [Hperm Hsort].
  repeat split; [exact Hperm|exact Hsort|].
  intros r Hr. eapply Permutation_in in Hr; [|exact Hperm].
  now apply owned_by_spec in Hr.
Qed.

(** The tag list shows the requester's tags only, by descending name. *)
Lemma tag_list_scoped_ordered (P : Project) (st : Store) (req : Request)
    (u : nat) :
  authenticated_as (DEFAULT_AUTHENTICATION_CLASSES (settings P)) st req u ->
  method req = GET ->
  let rows := listed (handle P (recipe_url "tags" None) req st) in
  Permutation rows (owned_by u (tags st)) /\ descending "name" rows
  /\ forall r, In r rows -> row_user r = u.
Proof.
  intros Hauth Hm. rewrite (tag_list_response P st req u Hauth Hm).
  unfold listed; cbn [fst response_data].
  destruct (evaluate_owner_desc st Tag u "name") as [Hperm Hsort].
  repeat split; [exact Hperm|exact Hsort|].
  intros r Hr. eapply Permutation_in in Hr; [|exact Hperm].
  now apply owned_by_spec in Hr.
Qed.

Lemma example_token_1 (m : HttpMethod) (d : Dict) :
  authenticated_as [TokenAuthentication] example_store
    (token_request m "t1" d) 1.
Proof. apply token_authenticates; reflexivity. Qed.

(** C1, at the failing input: user 1 lists the ingredients with a valid
    token and the response contains the ingredient of user 2; a list
    response is not limited to the entities the requester owns. *)
Theorem ingredient_list_shows_foreign_rows (P : Project) :
  let req := token_request GET "t1" ∅ in
  authenticated_as [TokenAuthentication] example_store req 1
  /\ status_of (handle P (recipe_url "ingredients" None) req example_store)
     = HTTP_200_OK
  /\ In (named 3 2 "other ingredient")
       (listed (handle P (recipe_url "ingredients" None) req example_store))
  /\ row_user (named 3 2 "other ingredient") = 2.
Proof.
  intros req. pose proof (example_token_1 GET ∅) as Hauth.
  split; [exact Hauth|].
  unfold req.
  rewrite (ingredient_list_response P _ _ 1 Hauth eq_refl).
  repeat split. simpl. auto.
Qed.

(** C7, at the failing input: with Kale and Salt created in this order the
    ingredient list comes back in storage order, Kale first, and not by
    name in descending order as [order_by("-name")] asks for. *)
Theorem ingredient_list_in_storage_order (P : Project) :
  let rows :=
    listed (handle P (recipe_url "ingredients" None)
              (token_request GET "t1" ∅) example_store) in
  rows = [named 1 1 "Kale"; named 2 1 "Salt"; named 3 2 "other ingredient"]
  /\ ~ descending "name" rows.
Proof.
  intros rows. unfold rows.
  rewrite (ingredient_list_response P _ _ 1 (example_token_1 GET ∅) eq_refl).
  split; [reflexivity|].
  unfold listed, descending; cbn [fst response_data example_store ingredients].
  intros Hs. inversion Hs as [|? ? _ Hhd]; subst.
  inversion Hhd as [|? ? Hle]; subst.
  vm_compute in Hle. discriminate.
Qed.

(** ** Requests without credentials *)

(** After [resolve_url]: the status of the answer to a request without
    credentials is that of an authentication error. *)
Ltac no_credentials_status Hno :=
  match goal with
  | |- context [APIView.run ?P ?a ?act ?pk ?req ?auths ?perms ?st] =>
      let e := fresh "e" in
      let He := fresh "He" in
      destruct (run_no_credentials P a act pk req auths perms st Hno)
        as (e & -> & He); [simpl; auto|];
      unfold status_of, handle_exception; cbn [fst snd status_code];
      rewrite He
  end.

Lemma recipes_without_credentials (P : Project) (pk : option nat)
    (req : Request) (st : Store) :
  no_credentials req ->
  let res := handle P (recipe_url "recipes" pk) req st in
  status_of res = HTTP_401_UNAUTHORIZED /\ snd res = st.
Proof.
  intros Hno.
  destruct pk as [pk|]; resolve_url; no_credentials_status Hno; now split.
Qed.

Lemma ingredients_without_credentials (P : Project) (pk : option nat)
    (req : Request) (st : Store) :
  no_credentials req ->
  let res := handle P (recipe_url "ingredients" pk) req st in
  status_of res = HTTP_401_UNAUTHORIZED /\ snd res = st.
Proof.
  intros Hno.
  destruct pk as [pk|]; resolve_url; no_credentials_status Hno; now split.
Qed.

Lemma me_without_credentials (P : Project) (req : Request) (st : Store) :
  no_credentials req ->
  let res := handle P (user_url "me") req st in
  status_of res = HTTP_401_UNAUTHORIZED /\ snd res = st.
Proof.
  intros Hno. resolve_url; no_credentials_status Hno; now split.
Qed.

(** The tag viewset binds [authentication_class], a name the framework does
    not read: the status depends on the first default authentication class
    of the settings. *)
Lemma tags_without_credentials (P : Project) (pk : option nat)
    (req : Request) (st : Store) :
  no_credentials req ->
  let res := handle P (recipe_url "tags" pk) req st in
  status_of res
  = exception_status (DEFAULT_AUTHENTICATION_CLASSES (settings P))
      NotAuthenticated
  /\ snd res = st.
Proof.
  intros Hno.
  destruct pk as [pk|]; resolve_url; no_credentials_status Hno; now split.
Qed.

Lemma anonymous_request_no_credentials (m : HttpMethod) (d : Dict) :
  no_credentials (anonymous_request m d).
Proof. repeat split. Qed.

(** C2, at the failing input: on the framework's default settings a request
    without credentials to the tag endpoints is answered 403, not 401,
    while the same request to the ingredient endpoints is answered 401. *)
Theorem tags_without_credentials_forbidden
    (v : SerializerClass -> bool -> Store -> Dict -> option Dict)
    (g : Store -> string) (pk : option nat) (m : HttpMethod) (d : Dict)
    (st : Store) :
  status_of (handle (stock_project v g) (recipe_url "tags" pk)
               (anonymous_request m d) st) = HTTP_403_FORBIDDEN
  /\ status_of (handle (stock_project v g) (recipe_url "ingredients" pk)
                  (anonymous_request m d) st) = HTTP_401_UNAUTHORIZED.
Proof.
  split.
  - destruct (tags_without_credentials (stock_project v g) pk _ st
                (anonymous_request_no_credentials m d)) as [-> _].
    reflexivity.
  - now destruct (ingredients_without_credentials (stock_project v g) pk _ st
                    (anonymous_request_no_credentials m d)) as [-> _].
Qed.

(** ** Token authentication *)

(** Neither default authentication class of the framework reads a [Token]
    header. *)
Lemma defaults_skip_token (st : Store) (m : HttpMethod) (key : string)
    (d : Dict) :
  _authenticate
    (request_authenticators
       (DEFAULT_AUTHENTICATION_CLASSES rest_framework_defaults)
       (token_request m key d)) st (token_request m key d)
  = inr (AnonymousUser, false).
Proof. reflexivity. Qed.

(** C5, at the failing input: on the framework's default settings a request
    bearing a valid token, which the recipe, ingredient and user views
    accept for its user, is not authenticated by the tag endpoints: the
    answer is the 403 of a request without credentials. *)
Theorem tags_ignore_valid_token
    (v : SerializerClass -> bool -> Store -> Dict -> option Dict)
    (g : Store -> string) (st : Store) (key : string) (u : nat)
    (pk : option nat) (m : HttpMethod) (d : Dict) :
  tokens st !! key = Some u ->
  active_user st u = true ->
  let req := token_request m key d in
  authenticated_as [TokenAuthentication] st req u
  /\ handle (stock_project v g) (recipe_url "tags" pk) req st
     = (handle_exception [SessionAuthentication; BasicAuthentication]
          NotAuthenticated, st)
  /\ status_of (handle (stock_project v g) (recipe_url "tags" pk) req st)
     = HTTP_403_FORBIDDEN.
Proof.
  intros Hk Hu req.
  assert (handle (stock_project v g) (recipe_url "tags" pk) req st
          = (handle_exception [SessionAuthentication; BasicAuthentication]
               NotAuthenticated, st)) as Heq.
  { unfold req. destruct pk as [pk|]; resolve_url;
      unfold APIView.run;
      cbn [settings stock_project];
      rewrite defaults_skip_token; reflexivity. }
  split; [now apply token_authenticates|].
  split; [exact Heq|]. now rewrite Heq.
Qed.

Lemma tags_ignore_valid_token_witness :
  tokens example_store !! "t1" = Some 1
  /\ active_user example_store 1 = true
  /\ status_of (handle example_project (recipe_url "tags" None)
                  (token_request GET "t1" ∅) example_store)
     = HTTP_403_FORBIDDEN.
Proof.
  split; [reflexivity|]. split; [reflexivity|].
  apply (tags_ignore_valid_token (fun _ _ _ d => Some d) (fun _ => "t3")
           example_store "t1" 1 None GET ∅); reflexivity.
Defined.

(** ** Creating an ingredient *)

Lemma ingredient_post_response (P : Project) (st : Store) (req : Request)
    (u : nat) :
  authenticated_as [TokenAuthentication] st req u ->
  method req = POST ->
  handle P (recipe_url "ingredients" None) req st =
    (handle_exception [TokenAuthentication] MethodNotAllowed, st).
Proof.
  intros Hauth Hm. resolve_url. to_handler Hauth Hm. reflexivity.
Qed.

(** C3 as stated fails: the POST of [{name: "Kale"}] with the valid token of
    user 1 is not answered 201. *)
Lemma post_kale_not_created :
  ~ post_kale_creates example_project empty_pantry "t1" 1.
Proof.
  intros [Hstatus _]. revert Hstatus.
  rewrite (ingredient_post_response example_project empty_pantry _ 1).
  - discriminate.
  - apply token_authenticates; reflexivity.
  - reflexivity.
Qed.

(** C3, amended: for an authenticated user a POST to the ingredient list is
    answered 405 and leaves the database as it was; an ingredient named
    Kale created for that user in the database (as the tests do, with
    [Ingredient.objects.create]) is in the user's next list response. *)
Theorem ingredient_post_not_allowed_created_row_listed (P : Project)
    (st : Store) (post_req get_req : Request) (u : nat) :
  authenticated_as [TokenAuthentication] st post_req u ->
  method post_req = POST ->
  authenticated_as [TokenAuthentication] st get_req u ->
  method get_req = GET ->
  (let posted := handle P (recipe_url "ingredients" None) post_req st in
   status_of posted = HTTP_405_METHOD_NOT_ALLOWED /\ snd posted = st)
  /\ exists r st',
       objects_create Ingredient
         {[ "user" := VUser (User u); "name" := VStr "Kale" ]} st
       = (inr r, st')
       /\ row_user r = u
       /\ row_fields r !! "name" = Some (VStr "Kale")
       /\ status_of (handle P (recipe_url "ingredients" None) get_req st')
          = HTTP_200_OK
       /\ In r (listed (handle P (recipe_url "ingredients" None) get_req st')).
Proof.
  intros Hpost Hpm Hget Hgm. split.
  - rewrite (ingredient_post_response P st post_req u Hpost Hpm). now split.
  - unfold objects_create.
    rewrite lookup_insert_eq.
    eexists _, _. split; [reflexivity|].
    split; [reflexivity|].
    split; [now vm_compute|].
    rewrite (ingredient_list_response P _ get_req u).
    + split; [reflexivity|].
      unfold listed; cbn [fst response_data set_table ingredients table].
      apply in_or_app. right. now left.
    + unfold authenticated_as. now rewrite authenticate_set_table.
    + exact Hgm.
Qed.

Lemma ingredient_post_not_allowed_created_row_listed_witness :
  authenticated_as [TokenAuthentication] empty_pantry
    (token_request POST "t1" {[ "name" := VStr "Kale" ]}) 1
  /\ authenticated_as [TokenAuthentication] empty_pantry
       (token_request GET "t1" ∅) 1
  /\ status_of (handle example_project (recipe_url "ingredients" None)
                  (token_request POST "t1" {[ "name" := VStr "Kale" ]})
                  empty_pantry)
     = HTTP_405_METHOD_NOT_ALLOWED.
Proof.
  assert (forall m d, authenticated_as [TokenAuthentication] empty_pantry
                        (token_request m "t1" d) 1) as Hauth
    by (intros; apply token_authenticates; reflexivity).
  split; [apply Hauth|]. split; [apply Hauth|].
  apply (ingredient_post_not_allowed_created_row_listed example_project
           empty_pantry _ (token_request GET "t1" ∅) 1);
    (apply Hauth || reflexivity).
Defined.

(** ** Detail requests on entities of another user *)

(** A row every instance of which with the given id belongs to someone else
    is not in the requester's query set. *)
Lemma get_by_pk_foreign (st : Store) (m : Model) (u : nat) (spec : string)
    (pk : nat) :
  (forall r, In r (table m st) -> row_id r = pk -> row_user r <> u) ->
  get_by_pk st {| qs_model := m; qs_user_is := [u];
                  qs_order_by := Some spec |} pk = None.
Proof.
  intros Hforeign. unfold get_by_pk.
  destruct (List.find _ _) as [r|] eqn:Hfind; [|reflexivity].
  apply List.find_some in Hfind as [Hin Hid].
  unfold evaluate in Hin; cbn [qs_model qs_user_is qs_order_by] in Hin.
  eapply Permutation_in in Hin; [|apply sort_by_perm].
  apply List.filter_In in Hin as [Hin Hu].
  unfold matches in Hu; simpl in Hu. rewrite andb_true_r in Hu.
  apply Nat.eqb_eq in Hid, Hu. now destruct (Hforeign r Hin Hid).
Qed.

Lemma recipes_foreign_detail (P : Project) (st : Store) (req : Request)
    (u pk : nat) :
  authenticated_as [TokenAuthentication] st req u ->
  method req <> POST ->
  (forall r, In r (recipes st) -> row_id r = pk -> row_user r <> u) ->
  handle P (recipe_url "recipes" (Some pk)) req st
  = (handle_exception [TokenAuthentication] Http404, st).
Proof.
  intros Hauth Hm Hforeign. resolve_url.
  destruct (method req) eqn:Hmethod; [| congruence | | |];
    to_handler Hauth Hmethod; exec; eval_queryset;
    rewrite (get_by_pk_foreign st Recipe u "-id" pk Hforeign);
    reflexivity.
Qed.

Lemma tags_foreign_detail (P : Project) (st : Store) (req : Request)
    (u pk : nat) :
  authenticated_as (DEFAULT_AUTHENTICATION_CLASSES (settings P)) st req u ->
  method req <> POST ->
  method req <> GET ->
  (forall r, In r (tags st) -> row_id r = pk -> row_user r <> u) ->
  handle P (recipe_url "tags" (Some pk)) req st
  = (handle_exception (DEFAULT_AUTHENTICATION_CLASSES (settings P)) Http404,
     st).
Proof.
  intros Hauth Hm Hg Hforeign. resolve_url.
  destruct (method req) eqn:Hmethod; [congruence | congruence | | |];
    to_handler Hauth Hmethod; exec; eval_queryset;
    rewrite (get_by_pk_foreign st Tag u "-name" pk Hforeign);
    reflexivity.
Qed.

(** Neither the tag nor the ingredient viewset has a [retrieve] action: the
    detail route binds no handler to GET. *)
Lemma tags_retrieve_not_allowed (P : Project) (st : Store) (req : Request)
    (u pk : nat) :
  authenticated_as (DEFAULT_AUTHENTICATION_CLASSES (settings P)) st req u ->
  method req = GET ->
  handle P (recipe_url "tags" (Some pk)) req st
  = (handle_exception (DEFAULT_AUTHENTICATION_CLASSES (settings P))
       MethodNotAllowed, st).
Proof.
  intros Hauth Hm. resolve_url. to_handler Hauth Hm. reflexivity.
Qed.

Lemma ingredients_retrieve_not_allowed (P : Project) (st : Store)
    (req : Request) (u pk : nat) :
  authenticated_as [TokenAuthentication] st req u ->
  method req = GET ->
  handle P (recipe_url "ingredients" (Some pk)) req st
  = (handle_exception [TokenAuthentication] MethodNotAllowed, st).
Proof.
  intros Hauth Hm. resolve_url. to_handler Hauth Hm. reflexivity.
Qed.

(** The ingredient viewset works on the whole table: user 1 deletes the
    ingredient of user 2. *)
Example ingredient_foreign_delete :
  let res := handle example_project (recipe_url "ingredients" (Some 3))
               (token_request DELETE "t1" ∅) example_store in
  status_of res = HTTP_204_NO_CONTENT
  /\ ingredients (snd res) = [named 1 1 "Kale"; named 2 1 "Salt"].
Proof. split; reflexivity. Qed.

(** C4 as stated fails: user 1 retrieves tag 2 and ingredient 3, which
    user 2 owns, and the answers are 405, not 404. *)
Lemma foreign_tag_retrieve_not_404 :
  (In (named 2 2 "Vegan") (tags example_store)
   /\ status_of (handle example_project (recipe_url "tags" (Some 2))
                   (forced_request GET 1 ∅) example_store)
      <> HTTP_404_NOT_FOUND)
  /\ (In (named 3 2 "other ingredient") (ingredients example_store)
      /\ status_of (handle example_project (recipe_url "ingredients" (Some 3))
                      (token_request GET "t1" ∅) example_store)
         <> HTTP_404_NOT_FOUND).
Proof.
  split; (split; [simpl; auto|]).
  - rewrite (tags_retrieve_not_allowed example_project example_store _ 1 2).
    + discriminate.
    + now apply force_authenticates.
    + reflexivity.
  - rewrite (ingredients_retrieve_not_allowed example_project example_store
               _ 1 3 (example_token_1 GET ∅) eq_refl).
    discriminate.
Qed.

(** C4, amended: for an authenticated user and a recipe or tag owned by a
    different user, an update, partial update or delete request on it (here
    [req]) is answered 404 and changes nothing, and so is a retrieve request
    (here [get]) on such a recipe; a retrieve request on a tag or on an
    ingredient is answered 405 and changes nothing, as these viewsets have
    no retrieve action. *)
Theorem foreign_detail_requests (P : Project) (st : Store)
    (req get : Request) (u pk : nat) :
  method req <> POST ->
  method req <> GET ->
  method get = GET ->
  (authenticated_as [TokenAuthentication] st req u ->
   authenticated_as [TokenAuthentication] st get u ->
   (forall r, In r (recipes st) -> row_id r = pk -> row_user r <> u) ->
   let res := handle P (recipe_url "recipes" (Some pk)) req st in
   let got := handle P (recipe_url "recipes" (Some pk)) get st in
   status_of res = HTTP_404_NOT_FOUND /\ snd res = st
   /\ status_of got = HTTP_404_NOT_FOUND /\ snd got = st)
  /\ (authenticated_as (DEFAULT_AUTHENTICATION_CLASSES (settings P)) st req u ->
      authenticated_as (DEFAULT_AUTHENTICATION_CLASSES (settings P)) st get u ->
      (forall r, In r (tags st) -> row_id r = pk -> row_user r <> u) ->
      let res := handle P (recipe_url "tags" (Some pk)) req st in
      let got := handle P (recipe_url "tags" (Some pk)) get st in
      status_of res = HTTP_404_NOT_FOUND /\ snd res = st
      /\ status_of got = HTTP_405_METHOD_NOT_ALLOWED /\ snd got = st)
  /\ (authenticated_as [TokenAuthentication] st get u ->
      let got := handle P (recipe_url "ingredients" (Some pk)) get st in
      status_of got = HTTP_405_METHOD_NOT_ALLOWED /\ snd got = st).
Proof.
  intros Hpost Hget Hg. repeat split.
  1-4: rewrite recipes_foreign_detail with (u := u);
       (reflexivity || assumption || congruence).
  1-2: rewrite tags_foreign_detail with (u := u);
       (reflexivity || assumption).
  1-2: rewrite tags_retrieve_not_allowed with (u := u);
       (reflexivity || assumption).
  1-2: rewrite ingredients_retrieve_not_allowed with (u := u);
       (reflexivity || assumption).
Qed.

Lemma foreign_detail_requests_witness :
  let req := forced_request DELETE 1 ∅ in
  let get := forced_request GET 1 ∅ in
  (method req <> POST /\ method req <> GET /\ method get = GET)
  /\ (status_of (handle example_project (recipe_url "recipes" (Some 2)) req
                   example_store) = HTTP_404_NOT_FOUND
      /\ recipes (snd (handle example_project (recipe_url "recipes" (Some 2))
                         req example_store)) = recipes example_store)
  /\ status_of (handle example_project (recipe_url "tags" (Some 2)) req
                  example_store) = HTTP_404_NOT_FOUND
  /\ status_of (handle example_project (recipe_url "ingredients" (Some 3)) get
                  example_store) = HTTP_405_METHOD_NOT_ALLOWED.
Proof.
  intros req get.
  assert (forall auths m, authenticated_as auths example_store
                            (forced_request m 1 ∅) 1) as Hauth
    by (intros; now apply force_authenticates).
  assert (forall rows : list Row,
            rows = recipes example_store \/ rows = tags example_store ->
            forall r, In r rows -> row_id r = 2 -> row_user r <> 1)
    as Hforeign.
  { intros rows [-> | ->] r Hin Hid; simpl in Hin;
      repeat (destruct Hin as [<- | Hin]; [simpl in *; lia|]);
      destruct Hin. }
  split; [repeat split; discriminate|].
  destruct (foreign_detail_requests example_project example_store req get 1 2)
    as (Hrecipes & Htags & _); try discriminate; try reflexivity.
  destruct (foreign_detail_requests example_project example_store req get 1 3)
    as (_ & _ & Hingredients); try discriminate; try reflexivity.
  destruct Hrecipes as (H1 & H2 & _);
    [apply Hauth | apply Hauth | apply Hforeign; now left |].
  destruct Htags as (H3 & _);
    [apply Hauth | apply Hauth | apply Hforeign; now right |].
  destruct Hingredients as (H4 & _); [apply Hauth|].
  split; [split; [exact H1 | now rewrite H2]|].
  split; [exact H3 | exact H4].
Defined.

(** ** Retrieving a recipe *)

(** A retrieve request on a recipe of the requester is rendered with the
    detail serializer. *)
Lemma recipe_retrieve_response (P : Project) (st : Store) (req : Request)
    (u pk : nat) (r : Row) :
  authenticated_as [TokenAuthentication] st req u ->
  method req = GET ->
  get_by_pk st {| qs_model := Recipe; qs_user_is := [u];
                  qs_order_by := Some "-id" |} pk = Some r ->
  handle P (recipe_url "recipes" (Some pk)) req st =
    ({| status_code := HTTP_200_OK;
        response_data := One RecipeDetailSerializer (ReprRow r) |}, st).
Proof.
  intros Hauth Hm Hr. resolve_url. to_handler Hauth Hm.
  exec; eval_queryset. rewrite Hr. exec. reflexivity.
Qed.

(** ** calc *)

(** C8: [calc.add] applied to 5 and 6 returns 11. *)
Theorem calc_add_5_6 : calc.add 5 6 = 11%Z.
Proof. reflexivity. Qed.

(** ** Creating a recipe *)

(** The row [perform_create] stores: the owner is the requester, whatever
    the validated data say about [user]. *)
Lemma recipe_create_response (P : Project) (st : Store) (req : Request)
    (u : nat) (vd : Dict) :
  authenticated_as [TokenAuthentication] st req u ->
  method req = POST ->
  run_validation P RecipeSerializer false st (data req) = Some vd ->
  let r := {| row_id := next_id Recipe st; row_user := u;
              row_fields :=
                delete "user" ({[ "user" := VUser (User u) ]} ∪ vd) |} in
  handle P (recipe_url "recipes" None) req st =
    ({| status_code := HTTP_201_CREATED;
        response_data := One RecipeSerializer (ReprRow r) |},
     set_table Recipe (recipes st ++ [r]) st).
Proof.
  intros Hauth Hm Hv r. resolve_url. to_handler Hauth Hm.
  run. rewrite Hv. run.
  unfold objects_create.
  rewrite (lookup_union_Some_l _ _ _ (VUser (User u)))
    by apply lookup_singleton_eq.
  run. reflexivity.
Qed.

Lemma recipe_create_invalid (P : Project) (st : Store) (req : Request)
    (u : nat) :
  authenticated_as [TokenAuthentication] st req u ->
  method req = POST ->
  run_validation P RecipeSerializer false st (data req) = None ->
  handle P (recipe_url "recipes" None) req st =
    (handle_exception [TokenAuthentication] ValidationError, st).
Proof.
  intros Hauth Hm Hv. resolve_url. to_handler Hauth Hm.
  run. rewrite Hv. run. reflexivity.
Qed.

(** C9: a recipe created through the recipe create endpoint is owned by the
    authenticated requester: every recipe in the table after the request
    was there before or belongs to the requester, and when the body is valid
    the answer is 201 and the stored row, owned by the requester, is the
    last of the table, whatever [user] the validated body carries. *)
Theorem recipe_create_owner (P : Project) (st : Store) (req : Request)
    (u : nat) :
  authenticated_as [TokenAuthentication] st req u ->
  method req = POST ->
  let res := handle P (recipe_url "recipes" None) req st in
  (forall r, In r (recipes (snd res)) -> In r (recipes st) \/ row_user r = u)
  /\ (forall vd,
        run_validation P RecipeSerializer false st (data req) = Some vd ->
        exists r,
          res = ({| status_code := HTTP_201_CREATED;
                    response_data := One RecipeSerializer (ReprRow r) |},
                 set_table Recipe (recipes st ++ [r]) st)
          /\ row_user r = u).
Proof.
  intros Hauth Hm res. unfold res. split.
  - destruct (run_validation P RecipeSerializer false st (data req))
      as [vd|] eqn:Hv.
    + rewrite (recipe_create_response P st req u vd Hauth Hm Hv).
      cbn [snd set_table recipes]. intros r Hin.
      apply in_app_or in Hin as [Hin | [<- | []]]; [now left | now right].
    + rewrite (recipe_create_invalid P st req u Hauth Hm Hv). now left.
  - intros vd Hv.
    rewrite (recipe_create_response P st req u vd Hauth Hm Hv).
    eexists. split; reflexivity.
Qed.

Lemma recipe_create_owner_witness :
  let req := token_request POST "t1"
               {[ "title" := VStr "Pie"; "user" := VUser (User 2) ]} in
  authenticated_as [TokenAuthentication] example_store req 1
  /\ method req = POST
  /\ List.map row_user
       (recipes (snd (handle example_project (recipe_url "recipes" None) req
                        example_store)))
     = [1; 2; 1; 1].
Proof.
  intros req.
  assert (authenticated_as [TokenAuthentication] example_store req 1)
    as Hauth by (apply token_authenticates; reflexivity).
  split; [exact Hauth|]. split; [reflexivity|].
  destruct (recipe_create_owner example_project example_store req 1 Hauth
              eq_refl) as [_ Hcreated].
  destruct (Hcreated _ eq_refl) as (r & -> & Hr).
  cbn [snd set_table recipes]. rewrite List.map_app. simpl. now rewrite Hr.
Defined.

(** ** The user's own account *)

(** The three outcomes of a request to [/api/user/me/]: an error that leaves
    the database as it was, the requester's row, or the requester's row
    updated with the validated data. *)
Lemma me_response (P : Project) (st : Store) (req : Request) (u : nat) :
  authenticated_as [TokenAuthentication] st req u ->
  let res := handle P (user_url "me") req st in
  (exists e, res = (handle_exception [TokenAuthentication] e, st))
  \/ (exists row,
        method req = GET /\ users st !! u = Some row
        /\ res = ({| status_code := HTTP_200_OK;
                     response_data := One UserSerializer (ReprUser u row) |},
                  st))
  \/ (exists row vd,
        (method req = PUT \/ method req = PATCH)
        /\ users st !! u = Some row
        /\ let row' := {| is_active := is_active row;
                          user_fields := (∅ ∪ vd) ∪ user_fields row |} in
           res = ({| status_code := HTTP_200_OK;
                     response_data :=
                       One UserSerializer (ReprUser u row') |},
                  set_users (<[u := row']> (users st)) st)).
Proof.
  intros Hauth res. unfold res. resolve_url.
  destruct (method req) eqn:Hm; to_handler Hauth Hm.
  - (* GET *)
    run. destruct (users st !! u) as [row|] eqn:Hu; run.
    + right; left. exists row. now repeat split.
    + left. now exists ServerError.
  - (* POST *) left. now exists MethodNotAllowed.
  - (* PUT *)
    run.
    destruct (run_validation P UserSerializer false st (data req))
      as [vd|] eqn:Hv; run; [|left; now exists ValidationError].
    destruct (users st !! u) as [row|] eqn:Hu; run;
      [|left; now exists ServerError].
    right; right. exists row, vd.
    split; [now left|]. split; [reflexivity|].
    cbn [users set_users]. now rewrite lookup_insert_eq.
  - (* PATCH *)
    run.
    destruct (run_validation P UserSerializer true st (data req))
      as [vd|] eqn:Hv; run; [|left; now exists ValidationError].
    destruct (users st !! u) as [row|] eqn:Hu; run;
      [|left; now exists ServerError].
    right; right. exists row, vd.
    split; [now right|]. split; [reflexivity|].
    cbn [users set_users]. now rewrite lookup_insert_eq.
  - (* DELETE *) left. now exists MethodNotAllowed.
Qed.

Lemma me_get (P : Project) (st : Store) (req : Request) (u : nat)
    (row : UserRow) :
  authenticated_as [TokenAuthentication] st req u ->
  method req = GET ->
  users st !! u = Some row ->
  handle P (user_url "me") req st =
    ({| status_code := HTTP_200_OK;
        response_data := One UserSerializer (ReprUser u row) |}, st).
Proof.
  intros Hauth Hm Hu. resolve_url. to_handler Hauth Hm.
  run. rewrite Hu. run. reflexivity.
Qed.

(** C10: on [/api/user/me/] the object is the requester: [get_object]
    returns [request.user]; a GET renders the requester's row and changes
    nothing; whatever the request, every other user's row and every other
    table stay as they were, and a user rendered in the response is the
    requester as stored after the request. *)
Theorem manage_user_own_account (P : Project) (st : Store) (req : Request)
    (u : nat) :
  authenticated_as [TokenAuthentication] st req u ->
  let res := handle P (user_url "me") req st in
  (forall self, ManageUserView.get_object self = UserObject (request_user self))
  /\ (forall row, method req = GET -> users st !! u = Some row ->
        res = ({| status_code := HTTP_200_OK;
                  response_data := One UserSerializer (ReprUser u row) |},
               st))
  /\ (forall u', u' <> u -> users (snd res) !! u' = users st !! u')
  /\ (forall s pk row,
        response_data (fst res) = One s (ReprUser pk row) ->
        pk = u /\ users (snd res) !! u = Some row)
  /\ (tokens (snd res) = tokens st /\ recipes (snd res) = recipes st
      /\ tags (snd res) = tags st /\ ingredients (snd res) = ingredients st).
Proof.
  intros Hauth res.
  split; [reflexivity|].
  split; [intros row Hm Hu; now apply me_get|].
  destruct (me_response P st req u Hauth)
    as [[e Hres] | [(row & Hm & Hu & Hres) | (row & vd & Hm & Hu & Hres)]];
    fold res in Hres; cbv zeta in Hres; rewrite Hres.
  - cbn [fst snd handle_exception response_data].
    repeat split; discriminate.
  - cbn [fst snd response_data].
    repeat split; congruence.
  - cbn [fst snd response_data set_users users tokens recipes tags
         ingredients].
    split; [intros u' Hne; now rewrite lookup_insert_ne|].
    split; [|repeat split].
    intros s pk row0 Heq. injection Heq as _ <- <-.
    split; [reflexivity | apply lookup_insert_eq].
Qed.

Lemma manage_user_own_account_witness :
  let req := token_request PATCH "t1" {[ "name" := VStr "Ann" ]} in
  authenticated_as [TokenAuthentication] example_store req 1
  /\ users (snd (handle example_project (user_url "me") req example_store))
       !! 2 = Some active.
Proof.
  intros req.
  assert (authenticated_as [TokenAuthentication] example_store req 1)
    as Hauth by (apply token_authenticates; reflexivity).
  split; [exact Hauth|].
  destruct (manage_user_own_account example_project example_store req 1 Hauth)
    as (_ & _ & Hothers & _).
  rewrite (Hothers 2) by lia. reflexivity.
Defined.

(** ** The token endpoint *)

Lemma token_of_user_sound (st : Store) (u : nat) (key : string) :
  ObtainAuthToken.token_of_user st u = Some key -> tokens st !! key = Some u.
Proof.
  unfold ObtainAuthToken.token_of_user. intros H.
  destruct (List.find _ _) as [[k v]|] eqn:Hfind; [|discriminate].
  injection H as <-.
  apply List.find_some in Hfind as [Hin Hv]. cbn in Hv.
  apply Nat.eqb_eq in Hv as ->.
  apply list_elem_of_In in Hin. now apply elem_of_map_to_list in Hin.
Qed.

(** An authenticated or anonymous request passes [AllowAny]. *)
Lemma run_allow_any (P : Project) (a : list ClassDict) (act : option string)
    (pk : option nat) (req : Request) (auths : list AuthClass) (st : Store)
    (user : PyUser) (ok : bool) :
  _authenticate (request_authenticators auths req) st req = inr (user, ok) ->
  APIView.run P a act pk req auths [AllowAny] st =
    match getattr a (method_lower (method req)) with
    | Some (AMethod h) =>
        APIView.run_handler P h
          {| attrs := a; request := req; request_user := user;
             action := act; kwargs_pk := pk |} st
    | _ => (inl MethodNotAllowed, st)
    end.
Proof. intros Hauth. unfold APIView.run. now rewrite Hauth. Qed.

(** The key the token endpoint answers with is, in the database after the
    request, the token of the user the credentials were validated for. *)
Lemma token_endpoint_issues (P : Project) (st : Store) (req : Request)
    (user : PyUser) (ok : bool) (vd : Dict) (u : nat) :
  method req = POST ->
  _authenticate
    (request_authenticators (DEFAULT_AUTHENTICATION_CLASSES (settings P)) req)
    st req = inr (user, ok) ->
  run_validation P AuthTokenSerializer false st (data req) = Some vd ->
  vd !! "user" = Some (VUser (User u)) ->
  let res := handle P (user_url "token") req st in
  (exists key,
     fst res = {| status_code := HTTP_200_OK;
                  response_data := TokenKey key |}
     /\ tokens (snd res) !! key = Some u /\ users (snd res) = users st)
  \/ (status_of res = HTTP_500_INTERNAL_SERVER_ERROR /\ snd res = st
      /\ is_Some (tokens st !! generate_key P st)).
Proof.
  intros Hm Hauth Hv Hu res. unfold res. resolve_url.
  rewrite (run_allow_any _ _ _ _ _ _ _ _ _ Hauth), Hm.
  eval_action; eval_getattr; cbv beta iota.
  unfold APIView.run_handler, ObtainAuthToken.post.
  run. rewrite Hv. run. rewrite Hu. run.
  destruct (ObtainAuthToken.token_of_user st u) as [key|] eqn:Hk; run.
  - left. exists key. split; [reflexivity|]. split; [|reflexivity].
    now apply token_of_user_sound.
  - destruct (tokens st !! generate_key P st) eqn:Hg; run.
    + right. repeat split. eauto.
    + left. eexists. split; [reflexivity|].
      cbn [snd tokens set_tokens users].
      split; [apply lookup_insert_eq|reflexivity].
Qed.

(** A request bearing the issued key is, for the views that install token
    authentication, a request of that user. *)
Lemma issued_token_authenticates (P : Project) (st : Store) (req : Request)
    (key : string) (u : nat) (m : HttpMethod) (d : Dict) :
  let res := handle P (user_url "token") req st in
  tokens (snd res) !! key = Some u ->
  users (snd res) = users st ->
  active_user st u = true ->
  authenticated_as [TokenAuthentication] (snd res) (token_request m key d) u.
Proof.
  intros res Hk Hus Hu. apply token_authenticates; [exact Hk|].
  unfold active_user in *. now rewrite Hus.
Qed.

(** ** Updating a recipe of the requester *)

Lemma recipe_update_response (P : Project) (st : Store) (req : Request)
    (u pk : nat) (r r' : Row) (vd : Dict) :
  authenticated_as [TokenAuthentication] st req u ->
  method req = PUT \/ method req = PATCH ->
  get_by_pk st {| qs_model := Recipe; qs_user_is := [u];
                  qs_order_by := Some "-id" |} pk = Some r ->
  run_validation P RecipeDetailSerializer
    (match method req with PATCH => true | _ => false end) st (data req)
  = Some vd ->
  set_attrs (∅ ∪ vd) r = Some r' ->
  exists st',
    handle P (recipe_url "recipes" (Some pk)) req st =
      ({| status_code := HTTP_200_OK;
          response_data := One RecipeDetailSerializer (ReprRow r') |}, st')
    /\ save_row Recipe r' st = (inr tt, st').
Proof.
  intros Hauth Hm Hr Hv Hset. resolve_url.
  destruct Hm as [Hm|Hm]; rewrite Hm in Hv; to_handler Hauth Hm.
  all: run; rewrite Hr; run; rewrite Hv; run; rewrite Hset; run.
  all: unfold save_row; run; eexists; split; reflexivity.
Qed.

(** ** The repository's ingredient tests, run on the model *)

(** [test_auth_required] passes: the status is 401. *)
Example test_auth_required_passes (P : Project) :
  status_code (test_ingredient_api.test_auth_required P)
  = HTTP_401_UNAUTHORIZED.
Proof. reflexivity. Qed.

(** [test_retrieve_ingredients] fails in its second assertion: the response
    lists Kale before Salt, the query set ordered by ["-name"] lists Salt
    before Kale. *)
Example test_retrieve_ingredients_fails (P : Project) :
  let '(res, ingredients) := test_ingredient_api.test_retrieve_ingredients P in
  status_code res = HTTP_200_OK
  /\ names (rows_of res) = [VStr "Kale"; VStr "Salt"]
  /\ names ingredients = [VStr "Salt"; VStr "Kale"].
Proof. repeat split. Qed.

(** [test_ingredients_limited_to_user] passes as it is written: it asserts
    two rows and that the first is not the user's; the response holds the
    other user's ingredient. *)
Example test_ingredients_limited_to_user_passes (P : Project) :
  let '(res, ingredient) :=
    test_ingredient_api.test_ingredients_limited_to_user P in
  status_code res = HTTP_200_OK
  /\ length (rows_of res) = 2
  /\ names (rows_of res) = [VStr "other ingredient"; VStr "Onion"]
  /\ (column "name" <$> ingredient) = Some (VStr "Onion")
  /\ List.map row_user (rows_of res) = [2; 1].
Proof. repeat split. Qed.

(** ** The open endpoints *)

(** [CreateUserViews] and [CreateTokenView] allow any requester: a request
    without credentials creates an account, and obtains a token for the
    user its credentials validate for. *)
Example create_and_token_allow_any :
  status_of (handle example_project (user_url "create")
               (anonymous_request POST {[ "email" := VStr "a@example.com" ]})
               test_ingredient_api.empty_database) = HTTP_201_CREATED
  /\ fst (handle example_project (user_url "token")
            (anonymous_request POST {[ "user" := VUser (User 2) ]})
            example_store)
     = {| status_code := HTTP_200_OK; response_data := TokenKey "t2" |}.
Proof. split; reflexivity. Qed.

(** The scheme of the header is [Token]: the same key after [Bearer] is not
    read by token authentication. *)
Example bearer_keyword_not_read :
  _authenticate [OfClass TokenAuthentication] example_store
    {| method := GET; authorization := ["Bearer"; "t1"];
       session_user := None; csrf_ok := false; force_auth_user := None;
       data := ∅ |}
  = inr (AnonymousUser, false).
Proof. reflexivity. Qed.

(** ** Instances on the example data *)

Lemma example_unique_ids :
  unique_ids (recipes example_store) /\ unique_ids (tags example_store)
  /\ unique_ids (ingredients example_store).
Proof.
  unfold unique_ids; simpl.
  repeat split; repeat constructor; simpl; intuition lia.
Qed.

Lemma example_forced (auths : list AuthClass) (m : HttpMethod) (d : Dict) :
  authenticated_as auths example_store (forced_request m 1 d) 1.
Proof. now apply force_authenticates. Qed.

(** ** Rows and their ids *)

(** What [get_object] finds in the requester's query set is a row of the
    table with the requested id, owned by the requester. *)
Lemma get_by_pk_sound (st : Store) (m : Model) (u : nat) (spec : string)
    (pk : nat) (r : Row) :
  get_by_pk st {| qs_model := m; qs_user_is := [u];
                  qs_order_by := Some spec |} pk = Some r ->
  In r (table m st) /\ row_user r = u /\ row_id r = pk.
Proof.
  unfold get_by_pk. intros Hfind.
  apply List.find_some in Hfind as [Hin Hid].
  unfold evaluate in Hin; cbn [qs_model qs_user_is qs_order_by] in Hin.
  eapply Permutation_in in Hin; [|apply sort_by_perm].
  apply List.filter_In in Hin as [Hin Hu].
  unfold matches in Hu; simpl in Hu. rewrite andb_true_r in Hu.
  apply Nat.eqb_eq in Hid, Hu. auto.
Qed.

Lemma unique_ids_inj (rows : list Row) (a b : Row) :
  unique_ids rows -> In a rows -> In b rows -> row_id a = row_id b -> a = b.
Proof.
  unfold unique_ids. induction rows as [|x rows IH]; simpl; [easy|].
  intros Hnd [<-|Ha] [<-|Hb] Hid; inversion Hnd as [|? ? Hx Hnd']; subst;
    auto.
  - destruct Hx. rewrite Hid. now apply List.in_map.
  - destruct Hx. rewrite <- Hid. now apply List.in_map.
Qed.

(** A row of the requester is found under its id. *)
Lemma get_by_pk_found (st : Store) (m : Model) (u : nat) (spec : string)
    (r : Row) :
  unique_ids (table m st) -> In r (table m st) -> row_user r = u ->
  get_by_pk st {| qs_model := m; qs_user_is := [u];
                  qs_order_by := Some spec |} (row_id r) = Some r.
Proof.
  intros Hnd Hin Hu.
  destruct (get_by_pk st _ (row_id r)) as [r'|] eqn:Hget.
  - apply get_by_pk_sound in Hget as (Hin' & _ & Hid).
    f_equal. now apply (unique_ids_inj (table m st)).
  - unfold get_by_pk in Hget.
    eapply List.find_none in Hget.
    + now rewrite Nat.eqb_refl in Hget.
    + unfold evaluate; cbn [qs_model qs_user_is qs_order_by].
      eapply Permutation_in; [symmetry; apply sort_by_perm|].
      apply List.filter_In. split; [exact Hin|].
      unfold matches; simpl. rewrite andb_true_r. now apply Nat.eqb_eq.
Qed.

Lemma set_attrs_id (vd : Dict) (r r' : Row) :
  set_attrs vd r = Some r' -> row_id r' = row_id r.
Proof.
  unfold set_attrs.
  destruct (vd !! "user") as [[|?|[|?]]|]; intros H; inversion H; reflexivity.
Qed.

(** ** The serializer of the recipe viewset *)

(** C6: the recipe viewset selects its serializer by action: the plain
    recipe serializer for [list], the detail serializer for [retrieve],
    [update] and [partial_update].  So, for a recipe [r] of the
    authenticated requester, the list request renders the requester's
    recipes, [r] among them, with the plain serializer; the retrieve
    request at the id of [r] renders [r] with the detail serializer; and a
    PUT or PATCH request there has its body validated by the detail
    serializer and the updated row rendered with it.  With the detail
    serializer the richer variant of the plain one that the spec describes,
    every item of the list representation of [r] is in the representation
    the retrieval gives, which has an item the list representation
    lacks. *)
Theorem recipe_serializer_by_action (P : Project) (st : Store)
    (list_req get_req put_req : Request) (u : nat) (r : Row)
    (Meta_fields : SerializerClass -> list string) :
  authenticated_as [TokenAuthentication] st list_req u ->
  method list_req = GET ->
  authenticated_as [TokenAuthentication] st get_req u ->
  method get_req = GET ->
  authenticated_as [TokenAuthentication] st put_req u ->
  method put_req = PUT \/ method put_req = PATCH ->
  unique_ids (recipes st) -> In r (recipes st) -> row_user r = u ->
  detail_variant Meta_fields ->
  let detail_url := recipe_url "recipes" (Some (row_id r)) in
  let listing :=
    response_data (fst (handle P (recipe_url "recipes" None) list_req st)) in
  let retrieval := response_data (fst (handle P detail_url get_req st)) in
  let in_list := to_representation Meta_fields RecipeSerializer r in
  let in_detail := to_representation Meta_fields RecipeDetailSerializer r in
  (forall (a : list ClassDict) (req : Request) (user : PyUser)
          (pk : option nat),
     let view act :=
       {| attrs := a; request := req; request_user := user;
          action := Some act; kwargs_pk := pk |} in
     RecipeViewSet.get_serializer_class (view "list") = Some RecipeSerializer
     /\ RecipeViewSet.get_serializer_class (view "retrieve")
        = Some RecipeDetailSerializer
     /\ RecipeViewSet.get_serializer_class (view "update")
        = Some RecipeDetailSerializer
     /\ RecipeViewSet.get_serializer_class (view "partial_update")
        = Some RecipeDetailSerializer)
  /\ (exists rows, listing = Many RecipeSerializer rows /\ In r rows)
  /\ retrieval = One RecipeDetailSerializer (ReprRow r)
  /\ (forall vd r',
        run_validation P RecipeDetailSerializer
          (match method put_req with PATCH => true | _ => false end) st
          (data put_req) = Some vd ->
        set_attrs (∅ ∪ vd) r = Some r' ->
        response_data (fst (handle P detail_url put_req st))
        = One RecipeDetailSerializer (ReprRow r'))
  /\ In in_list (representations Meta_fields listing)
  /\ representations Meta_fields retrieval = [in_detail]
  /\ (forall item, In item in_list -> In item in_detail)
  /\ (exists item, In item in_detail /\ ~ In item in_list).
Proof.
  intros Hl Hlm Hg Hgm Hp Hpm Hnd Hin Hu [Hsub (k & Hk & Hnk)]
    detail_url listing retrieval in_list in_detail.
  assert (get_by_pk st {| qs_model := Recipe; qs_user_is := [u];
                          qs_order_by := Some "-id" |} (row_id r) = Some r)
    as Hget by now apply get_by_pk_found.
  assert (exists rows, listing = Many RecipeSerializer rows /\ In r rows)
    as Hlist.
  { unfold listing. rewrite (recipe_list_response P st list_req u Hl Hlm).
    eexists. split; [reflexivity|].
    eapply Permutation_in;
      [symmetry; apply (evaluate_owner_desc st Recipe u "id")|].
    apply owned_by_spec. now split. }
  assert (retrieval = One RecipeDetailSerializer (ReprRow r)) as Hretr.
  { unfold retrieval, detail_url.
    now rewrite (recipe_retrieve_response P st get_req u (row_id r) r Hg Hgm
                   Hget). }
  split; [intros a req user pk view; now repeat split|].
  split; [exact Hlist|]. split; [exact Hretr|].
  split.
  { intros vd r' Hv Hset. unfold detail_url.
    destruct (recipe_update_response P st put_req u (row_id r) r r' vd Hp Hpm
                Hget Hv Hset) as (st' & -> & _).
    reflexivity. }
  split.
  { destruct Hlist as (rows & -> & Hrows). cbn [representations].
    now apply List.in_map. }
  split; [now rewrite Hretr|].
  split.
  { intros item Hitem. unfold in_list, in_detail, to_representation in *.
    apply List.in_map_iff in Hitem as (f & <- & Hf).
    apply (List.in_map (fun k => (k, column k r))). now apply Hsub. }
  exists (k, column k r). split.
  - unfold in_detail, to_representation.
    now apply (List.in_map (fun k => (k, column k r))).
  - unfold in_list, to_representation. intros Hitem.
    apply List.in_map_iff in Hitem as (f & Hf & Hfin).
    apply Hnk. congruence.
Qed.

Lemma recipe_serializer_by_action_witness :
  let fields s :=
    match s with
    | RecipeDetailSerializer => ["id"; "name"; "description"]
    | _ => ["id"; "name"]
    end in
  let listing :=
    response_data
      (fst (handle example_project (recipe_url "recipes" None)
              (token_request GET "t1" ∅) example_store)) in
  let retrieval :=
    response_data
      (fst (handle example_project (recipe_url "recipes" (Some 1))
              (token_request GET "t1" ∅) example_store)) in
  authenticated_as [TokenAuthentication] example_store
    (token_request GET "t1" ∅) 1
  /\ authenticated_as [TokenAuthentication] example_store
       (token_request PATCH "t1" {[ "name" := VStr "Broth" ]}) 1
  /\ unique_ids (recipes example_store)
  /\ In (named 1 1 "Soup") (recipes example_store)
  /\ detail_variant fields
  /\ In [("id", VInt 1); ("name", VStr "Soup")]
       (representations fields listing)
  /\ representations fields retrieval
     = [[("id", VInt 1); ("name", VStr "Soup"); ("description", VStr "")]].
Proof.
  intros fields listing retrieval.
  assert (detail_variant fields) as Hvariant.
  { split.
    - intros k Hk. simpl in *. tauto.
    - exists "description". split; [simpl; auto|].
      simpl. intros [H|[H|[]]]; discriminate. }
  split; [apply example_token_1|]. split; [apply example_token_1|].
  split; [apply example_unique_ids|]. split; [simpl; auto|].
  split; [exact Hvariant|].
  destruct (recipe_serializer_by_action example_project example_store
              (token_request GET "t1" ∅) (token_request GET "t1" ∅)
              (token_request PATCH "t1" {[ "name" := VStr "Broth" ]})
              1 (named 1 1 "Soup") fields
              (example_token_1 GET _) eq_refl (example_token_1 GET _) eq_refl
              (example_token_1 PATCH _) (or_intror eq_refl)
              (proj1 example_unique_ids) (or_introl eq_refl) eq_refl
              Hvariant)
    as (_ & _ & _ & _ & Hlisted & Hretrieved & _).
  split; [exact Hlisted | exact Hretrieved].
Defined.

(** * Further properties of the views *)

(** ** The router's root and format suffixes *)

(** The root of the router links the three prefixes; under the framework's
    default settings anybody may read it. *)
Example api_root_links :
  fst (handle example_project recipe_root (anonymous_request GET ∅)
         example_store)
  = {| status_code := HTTP_200_OK;
       response_data := Links ["recipes"; "tags"; "ingredients"] |}.
Proof. vm_compute. reflexivity. Qed.

(** A format suffix a renderer has leaves the answer as it is; any other is
    answered 404. *)
Example recipes_json :
  handle example_project (recipe_url "recipes.json" None)
    (token_request GET "t1" ∅) example_store
  = handle example_project (recipe_url "recipes" None)
      (token_request GET "t1" ∅) example_store.
Proof. vm_compute. reflexivity. Qed.

Example recipe_detail_json :
  handle example_project (recipe_format_url "recipes" (Some 1) "json")
    (token_request GET "t1" ∅) example_store
  = handle example_project (recipe_url "recipes" (Some 1))
      (token_request GET "t1" ∅) example_store.
Proof. vm_compute. reflexivity. Qed.

Example recipes_xml :
  handle example_project (recipe_url "recipes.xml" None)
    (token_request GET "t1" ∅) example_store
  = (routers.not_found, example_store).
Proof. vm_compute. reflexivity. Qed.

(** Every request of an authenticated user to the recipe endpoints changes
    the recipe table, and nothing else, in one of the four ways. *)
Lemma recipes_request_change (P : Project) (st : Store) (req : Request)
    (u : nat) (pk : option nat) :
  authenticated_as [TokenAuthentication] st req u ->
  let st' := snd (handle P (recipe_url "recipes" pk) req st) in
  table_change u (recipes st) (recipes st')
  /\ tags st' = tags st /\ ingredients st' = ingredients st
  /\ users st' = users st /\ tokens st' = tokens st.
Proof.
  intros Hauth st'. unfold st'. clear st'.
  assert (forall r : Response,
            table_change u (recipes st) (recipes (snd (r, st)))
            /\ tags (snd (r, st)) = tags st /\ ingredients (snd (r, st)) = ingredients st
            /\ users (snd (r, st)) = users st
            /\ tokens (snd (r, st)) = tokens st) as Hsame.
  { intros r. repeat split. constructor. }
  destruct pk as [pk|]; resolve_url;
    destruct (method req) eqn:Hm; to_handler Hauth Hm; try apply Hsame.
  - (* retrieve *)
    run. destruct (get_by_pk st _ pk) as [r|] eqn:Hget; run; apply Hsame.
  - (* update *)
    run. destruct (get_by_pk st _ pk) as [r|] eqn:Hget; run; [|apply Hsame].
    destruct (run_validation P RecipeDetailSerializer false st (data req))
      as [vd|]; run; [|apply Hsame].
    destruct (set_attrs (∅ ∪ vd) r) as [r'|] eqn:Hset; run; [|apply Hsame].
    unfold save_row; run.
    cbn [snd table set_table recipes tags ingredients users tokens].
    apply get_by_pk_sound in Hget as (Hin & Hu & Hid).
    split; [|repeat split].
    apply (updated u (recipes st) r r'); auto.
    now apply set_attrs_id in Hset.
  - (* partial update *)
    run. destruct (get_by_pk st _ pk) as [r|] eqn:Hget; run; [|apply Hsame].
    destruct (run_validation P RecipeDetailSerializer true st (data req))
      as [vd|]; run; [|apply Hsame].
    destruct (set_attrs (∅ ∪ vd) r) as [r'|] eqn:Hset; run; [|apply Hsame].
    unfold save_row; run.
    cbn [snd table set_table recipes tags ingredients users tokens].
    apply get_by_pk_sound in Hget as (Hin & Hu & Hid).
    split; [|repeat split].
    apply (updated u (recipes st) r r'); auto.
    now apply set_attrs_id in Hset.
  - (* destroy *)
    run. destruct (get_by_pk st _ pk) as [r|] eqn:Hget; run; [|apply Hsame].
    unfold delete_instance; run.
    cbn [snd table set_table recipes tags ingredients users tokens].
    apply get_by_pk_sound in Hget as (Hin & Hu & Hid).
    split; [|repeat split]. now apply deleted.
  - (* create *)
    run.
    destruct (run_validation P RecipeSerializer false st (data req))
      as [vd|] eqn:Hv; run; [|apply Hsame].
    unfold objects_create.
    rewrite (lookup_union_Some_l _ _ _ (VUser (User u)))
      by apply lookup_singleton_eq.
    run. cbn [snd table set_table recipes tags ingredients users tokens].
    split; [|repeat split]. apply created; [reflexivity|].
    cbn [row_id]. unfold next_id. cbn [table]. lia.
Qed.

(** A change by user [u] keeps the rows of everybody else. *)
Lemma table_change_keeps_others (u : nat) (rows rows' : list Row) :
  table_change u rows rows' -> unique_ids rows ->
  forall x, In x rows -> row_user x <> u -> In x rows'.
Proof.
  intros Hc Hnd x Hx Hne. destruct Hc as [|r Hu Hid|r r' Hr Hu Hid|r Hr Hu].
  - exact Hx.
  - apply in_or_app. now left.
  - apply List.in_map_iff. exists x. split; [|exact Hx].
    destruct (Nat.eqb_spec (row_id x) (row_id r')) as [Heq|]; [|reflexivity].
    rewrite Hid in Heq.
    assert (x = r) by now apply (unique_ids_inj rows). congruence.
  - apply List.filter_In. split; [exact Hx|].
    destruct (Nat.eqb_spec (row_id x) (row_id r)) as [Heq|]; [|reflexivity].
    assert (x = r) by now apply (unique_ids_inj rows). congruence.
Qed.

Lemma fresh_id_above (rows : list Row) (x : Row) :
  In x rows -> row_id x < fresh_id rows.
Proof.
  unfold fresh_id. induction rows as [|y rows IH]; simpl; [easy|].
  intros [<-|Hx]; [lia|]. specialize (IH Hx). lia.
Qed.


Lemma map_replace_ids (rows : list Row) (r' : Row) :
  List.map row_id
    (List.map (fun x => if Nat.eqb (row_id x) (row_id r') then r' else x) rows)
  = List.map row_id rows.
Proof.
  rewrite List.map_map. apply List.map_ext. intros x.
  destruct (Nat.eqb_spec (row_id x) (row_id r')); congruence.
Qed.

Lemma filter_unique_ids (f : Row -> bool) (rows : list Row) :
  unique_ids rows -> unique_ids (List.filter f rows).
Proof.
  unfold unique_ids. induction rows as [|x rows IH]; simpl; [auto|].
  intros Hnd. inversion Hnd as [|? ? Hx Hnd']; subst.
  destruct (f x); simpl; [|auto].
  constructor; [|auto].
  intros Hin. apply Hx. apply List.in_map_iff in Hin as (y & Hy & Hin).
  apply List.filter_In in Hin as [Hin _]. rewrite <- Hy.
  now apply List.in_map.
Qed.

(** A change keeps the ids unique. *)
Lemma table_change_unique_ids (u : nat) (rows rows' : list Row) :
  table_change u rows rows' -> unique_ids rows -> unique_ids rows'.
Proof.
  intros Hc Hnd. destruct Hc as [|r Hu Hid|r r' Hr Hu Hid|r Hr Hu].
  - exact Hnd.
  - unfold unique_ids in *. rewrite List.map_app. simpl.
    apply List.NoDup_app; [exact Hnd|repeat constructor; easy|].
    intros i Hi [<-|[]]. apply List.in_map_iff in Hi as (x & Hx & Hin).
    apply fresh_id_above in Hin. lia.
  - unfold unique_ids. now rewrite map_replace_ids.
  - now apply filter_unique_ids.
Qed.

(** ** What a request can change *)

Lemma tags_request_change (P : Project) (st : Store) (req : Request)
    (u : nat) (pk : option nat) :
  authenticated_as (DEFAULT_AUTHENTICATION_CLASSES (settings P)) st req u ->
  let st' := snd (handle P (recipe_url "tags" pk) req st) in
  table_change u (tags st) (tags st')
  /\ recipes st' = recipes st /\ ingredients st' = ingredients st
  /\ users st' = users st /\ tokens st' = tokens st.
Proof.
  intros Hauth st'. unfold st'. clear st'.
  assert (forall r : Response,
            table_change u (tags st) (tags (snd (r, st)))
            /\ recipes (snd (r, st)) = recipes st /\ ingredients (snd (r, st)) = ingredients st
            /\ users (snd (r, st)) = users st
            /\ tokens (snd (r, st)) = tokens st) as Hsame.
  { intros r. repeat split. constructor. }
  destruct pk as [pk|]; resolve_url;
    destruct (method req) eqn:Hm; to_handler Hauth Hm; try apply Hsame.
  - (* update *)
    run. destruct (get_by_pk st _ pk) as [r|] eqn:Hget; run; [|apply Hsame].
    destruct (run_validation P TagSerializer false st (data req))
      as [vd|]; run; [|apply Hsame].
    destruct (set_attrs (∅ ∪ vd) r) as [r'|] eqn:Hset; run; [|apply Hsame].
    unfold save_row; run.
    cbn [snd table set_table recipes tags ingredients users tokens].
    apply get_by_pk_sound in Hget as (Hin & Hu & Hid).
    split; [|repeat split].
    apply (updated u (tags st) r r'); auto.
    now apply set_attrs_id in Hset.
  - (* partial update *)
    run. destruct (get_by_pk st _ pk) as [r|] eqn:Hget; run; [|apply Hsame].
    destruct (run_validation P TagSerializer true st (data req))
      as [vd|]; run; [|apply Hsame].
    destruct (set_attrs (∅ ∪ vd) r) as [r'|] eqn:Hset; run; [|apply Hsame].
    unfold save_row; run.
    cbn [snd table set_table recipes tags ingredients users tokens].
    apply get_by_pk_sound in Hget as (Hin & Hu & Hid).
    split; [|repeat split].
    apply (updated u (tags st) r r'); auto.
    now apply set_attrs_id in Hset.
  - (* destroy *)
    run. destruct (get_by_pk st _ pk) as [r|] eqn:Hget; run; [|apply Hsame].
    unfold delete_instance; run.
    cbn [snd table set_table recipes tags ingredients users tokens].
    apply get_by_pk_sound in Hget as (Hin & Hu & Hid).
    split; [|repeat split]. now apply deleted.
Qed.

Lemma set_table_other_tables (m : Model) (rows : list Row) (st : Store) :
  users (set_table m rows st) = users st
  /\ tokens (set_table m rows st) = tokens st
  /\ (m <> Recipe -> recipes (set_table m rows st) = recipes st)
  /\ (m <> Tag -> tags (set_table m rows st) = tags st)
  /\ (m <> Ingredient -> ingredients (set_table m rows st) = ingredients st)
  /\ table m (set_table m rows st) = rows.
Proof. destruct m; repeat split; congruence. Qed.

(** X1: whatever request an authenticated user sends to the recipe
    endpoints (any method, list or detail URL, any body), every recipe of
    another user stays in the table as it was, the ids of the table stay
    unique, and the tags, ingredients, users and tokens are unchanged. *)
Theorem recipes_requests_keep_foreign_rows (P : Project) (st : Store)
    (req : Request) (u : nat) (pk : option nat) :
  authenticated_as [TokenAuthentication] st req u ->
  unique_ids (recipes st) ->
  let st' := snd (handle P (recipe_url "recipes" pk) req st) in
  (forall x, In x (recipes st) -> row_user x <> u -> In x (recipes st'))
  /\ unique_ids (recipes st')
  /\ tags st' = tags st /\ ingredients st' = ingredients st
  /\ users st' = users st /\ tokens st' = tokens st.
Proof.
  intros Hauth Hnd st'.
  destruct (recipes_request_change P st req u pk Hauth)
    as (Hc & Htags & Hingredients & Husers & Htokens).
  split; [now apply (table_change_keeps_others u)|].
  split; [now apply (table_change_unique_ids u (recipes st))|].
  auto.
Qed.

Lemma recipes_requests_keep_foreign_rows_witness :
  let req := token_request DELETE "t1" ∅ in
  authenticated_as [TokenAuthentication] example_store req 1
  /\ unique_ids (recipes example_store)
  /\ In (named 2 2 "Cake")
       (recipes (snd (handle example_project (recipe_url "recipes" (Some 2))
                        req example_store))).
Proof.
  intros req.
  split; [apply example_token_1|]. split; [apply example_unique_ids|].
  apply (recipes_requests_keep_foreign_rows example_project example_store req
           1 (Some 2) (example_token_1 DELETE _) (proj1 example_unique_ids));
    [simpl; auto | simpl; lia].
Defined.

(** X2: whatever request a user the tag view authenticates sends to the tag
    endpoints, every tag of another user stays in the table as it was, the
    ids stay unique, and the other tables are unchanged. *)
Theorem tags_requests_keep_foreign_rows (P : Project) (st : Store)
    (req : Request) (u : nat) (pk : option nat) :
  authenticated_as (DEFAULT_AUTHENTICATION_CLASSES (settings P)) st req u ->
  unique_ids (tags st) ->
  let st' := snd (handle P (recipe_url "tags" pk) req st) in
  (forall x, In x (tags st) -> row_user x <> u -> In x (tags st'))
  /\ unique_ids (tags st')
  /\ recipes st' = recipes st /\ ingredients st' = ingredients st
  /\ users st' = users st /\ tokens st' = tokens st.
Proof.
  intros Hauth Hnd st'.
  destruct (tags_request_change P st req u pk Hauth)
    as (Hc & Hrecipes & Hingredients & Husers & Htokens).
  split; [now apply (table_change_keeps_others u)|].
  split; [now apply (table_change_unique_ids u (tags st))|].
  auto.
Qed.

Lemma tags_requests_keep_foreign_rows_witness :
  let req := forced_request DELETE 1 ∅ in
  authenticated_as
    (DEFAULT_AUTHENTICATION_CLASSES (settings example_project))
    example_store req 1
  /\ unique_ids (tags example_store)
  /\ In (named 2 2 "Vegan")
       (tags (snd (handle example_project (recipe_url "tags" (Some 2))
                     req example_store))).
Proof.
  intros req.
  split; [apply example_forced|]. split; [apply example_unique_ids|].
  apply (tags_requests_keep_foreign_rows example_project example_store req
           1 (Some 2) (example_forced _ DELETE _)
           (proj1 (proj2 example_unique_ids)));
    [simpl; auto | simpl; lia].
Defined.

(** ** Lists, routes and bodies *)

(** X3: the recipe list of an authenticated requester is answered 200 without
    changing the database; it holds exactly the recipes the requester owns (a
    permutation of them), in descending order of id. *)
Theorem recipe_list_owned_descending_id (P : Project) (st : Store)
    (req : Request) (u : nat) :
  authenticated_as [TokenAuthentication] st req u ->
  method req = GET ->
  let res := handle P (recipe_url "recipes" None) req st in
  status_of res = HTTP_200_OK /\ snd res = st
  /\ Permutation (listed res) (owned_by u (recipes st))
  /\ descending "id" (listed res).
Proof.
  intros Hauth Hm res.
  destruct (recipe_list_scoped_ordered P st req u Hauth Hm) as (Hp & Hs & _).
  fold res in Hp, Hs. cbv zeta in Hp, Hs.
  unfold res in *. rewrite (recipe_list_response P st req u Hauth Hm) in *.
  repeat split; assumption.
Qed.

Lemma recipe_list_owned_descending_id_witness :
  authenticated_as [TokenAuthentication] example_store
    (token_request GET "t1" ∅) 1
  /\ method (token_request GET "t1" ∅) = GET
  /\ status_of (handle example_project (recipe_url "recipes" None)
                  (token_request GET "t1" ∅) example_store) = HTTP_200_OK.
Proof.
  split; [apply example_token_1|]. split; [reflexivity|].
  apply (recipe_list_owned_descending_id example_project example_store
           (token_request GET "t1" ∅) 1 (example_token_1 GET ∅) eq_refl).
Defined.

(** X4: for a requester the tag view authenticates (by the default
    authentication classes of the settings), the tag list is answered 200
    without changing the database; it holds exactly the requester's tags, in
    descending order of name. *)
Theorem tag_list_owned_descending_name (P : Project) (st : Store)
    (req : Request) (u : nat) :
  authenticated_as (DEFAULT_AUTHENTICATION_CLASSES (settings P)) st req u ->
  method req = GET ->
  let res := handle P (recipe_url "tags" None) req st in
  status_of res = HTTP_200_OK /\ snd res = st
  /\ Permutation (listed res) (owned_by u (tags st))
  /\ descending "name" (listed res).
Proof.
  intros Hauth Hm res.
  destruct (tag_list_scoped_ordered P st req u Hauth Hm) as (Hp & Hs & _).
  fold res in Hp, Hs. cbv zeta in Hp, Hs.
  unfold res in *. rewrite (tag_list_response P st req u Hauth Hm) in *.
  repeat split; assumption.
Qed.

Lemma tag_list_owned_descending_name_witness :
  authenticated_as
    (DEFAULT_AUTHENTICATION_CLASSES (settings example_project))
    example_store (forced_request GET 1 ∅) 1
  /\ method (forced_request GET 1 ∅) = GET
  /\ status_of (handle example_project (recipe_url "tags" None)
                  (forced_request GET 1 ∅) example_store) = HTTP_200_OK.
Proof.
  split; [apply example_forced|]. split; [reflexivity|].
  apply (tag_list_owned_descending_name example_project example_store
           (forced_request GET 1 ∅) 1 (example_forced _ GET ∅) eq_refl).
Defined.

(** X5: a request with one of the methods below, sent by a user the view
    authenticates, is answered 405 without touching the database, as no
    action of the viewset is routed to it: for recipes, PUT, PATCH and
    DELETE on the list URL and POST on a detail URL; for ingredients and for
    tags, POST, PUT, PATCH and DELETE on the list URL, and GET and POST on a
    detail URL. *)
Theorem unrouted_methods_not_allowed (P : Project) (st : Store)
    (req : Request) (u : nat) (pk : option nat) :
  let on_list (ms : list HttpMethod) := pk = None /\ In (method req) ms in
  let on_detail (ms : list HttpMethod) := pk <> None /\ In (method req) ms in
  (authenticated_as [TokenAuthentication] st req u ->
   on_list [PUT; PATCH; DELETE] \/ on_detail [POST] ->
   handle P (recipe_url "recipes" pk) req st
   = (handle_exception [TokenAuthentication] MethodNotAllowed, st))
  /\ (authenticated_as [TokenAuthentication] st req u ->
      on_list [POST; PUT; PATCH; DELETE] \/ on_detail [GET; POST] ->
      handle P (recipe_url "ingredients" pk) req st
      = (handle_exception [TokenAuthentication] MethodNotAllowed, st))
  /\ (authenticated_as (DEFAULT_AUTHENTICATION_CLASSES (settings P)) st req u ->
      on_list [POST; PUT; PATCH; DELETE] \/ on_detail [GET; POST] ->
      handle P (recipe_url "tags" pk) req st
      = (handle_exception (DEFAULT_AUTHENTICATION_CLASSES (settings P))
           MethodNotAllowed, st)).
Proof.
  intros on_list on_detail. subst on_list on_detail.
  repeat split; intros Hauth [[-> Hroute]|[Hpk Hroute]];
    try (destruct pk as [pk|]; [clear Hpk|now destruct Hpk]);
    simpl in Hroute;
    repeat (destruct Hroute as [Hm|Hroute]; [symmetry in Hm|]);
    try contradiction;
    resolve_url; to_handler Hauth Hm; reflexivity.
Qed.

Lemma unrouted_methods_not_allowed_witness :
  let req := forced_request POST 1 ∅ in
  status_of (handle example_project (recipe_url "recipes" (Some 1)) req
               example_store) = HTTP_405_METHOD_NOT_ALLOWED
  /\ status_of (handle example_project (recipe_url "ingredients" (Some 1))
                  req example_store) = HTTP_405_METHOD_NOT_ALLOWED
  /\ status_of (handle example_project (recipe_url "tags" (Some 1)) req
                  example_store) = HTTP_405_METHOD_NOT_ALLOWED.
Proof.
  intros req.
  destruct (unrouted_methods_not_allowed example_project example_store req 1
              (Some 1)) as (Hr & Hi & Ht).
  rewrite Hr, Hi, Ht
    by (apply example_forced || (right; split; [discriminate|simpl; auto])).
  repeat split.
Defined.

Lemma plain_segment_no_suffix (s : string) :
  plain_segment s = true -> routers.split_suffix s = None.
Proof.
  induction s as [|c s IH]; simpl; [reflexivity|].
  intros H. apply andb_true_iff in H as [H Hs].
  apply andb_true_iff in H as [_ Hdot].
  destruct (Ascii.eqb c "."); [discriminate|]. now rewrite IH.
Qed.

(** X6: a URL [/api/recipe/<prefix>/] or [/api/recipe/<prefix>/<pk>/] whose
    prefix is one path segment without a dot (no slash, no format suffix)
    and none of the three registered prefixes is answered 404, whatever the
    request, and changes nothing. *)
Theorem unregistered_prefix_not_found (P : Project) (prefix : string)
    (pk : option nat) (req : Request) (st : Store) :
  plain_segment prefix = true ->
  prefix <> "recipes" -> prefix <> "tags" -> prefix <> "ingredients" ->
  handle P (recipe_url prefix pk) req st = (routers.not_found, st).
Proof.
  intros Hseg H1 H2 H3.
  unfold handle, recipe_urls.urlpatterns, routers.resolve, recipe_urls.router.
  cbn [List.find fst].
  destruct (String.eqb_spec "recipes" prefix); [congruence|].
  destruct (String.eqb_spec "tags" prefix); [congruence|].
  destruct (String.eqb_spec "ingredients" prefix); [congruence|].
  rewrite (plain_segment_no_suffix prefix Hseg). now destruct pk.
Qed.

Lemma unregistered_prefix_not_found_witness :
  plain_segment "users" = true
  /\ status_of (handle example_project (recipe_url "users" None)
                  (token_request GET "t1" ∅) example_store)
     = HTTP_404_NOT_FOUND.
Proof.
  split; [reflexivity|].
  now rewrite (unregistered_prefix_not_found example_project "users" None
                 (token_request GET "t1" ∅) example_store).
Defined.

(** X7: a POST to the recipe list whose body the recipe serializer rejects
    is answered 400 and stores nothing. *)
Theorem recipe_create_invalid_body (P : Project) (st : Store) (req : Request)
    (u : nat) :
  authenticated_as [TokenAuthentication] st req u ->
  method req = POST ->
  run_validation P RecipeSerializer false st (data req) = None ->
  let res := handle P (recipe_url "recipes" None) req st in
  status_of res = HTTP_400_BAD_REQUEST /\ snd res = st.
Proof.
  intros Hauth Hm Hv res. unfold res.
  rewrite (recipe_create_invalid P st req u Hauth Hm Hv). now split.
Qed.

Lemma recipe_create_invalid_body_witness :
  let P := stock_project (fun _ _ _ _ => None) (fun _ => "t3") in
  let req := token_request POST "t1" {[ "title" := VStr "Pie" ]} in
  authenticated_as [TokenAuthentication] example_store req 1
  /\ method req = POST
  /\ run_validation P RecipeSerializer false example_store (data req) = None
  /\ status_of (handle P (recipe_url "recipes" None) req example_store)
     = HTTP_400_BAD_REQUEST.
Proof.
  intros P req.
  split; [apply example_token_1|]. split; [reflexivity|].
  split; [reflexivity|].
  apply (recipe_create_invalid_body P example_store req 1
           (example_token_1 POST _) eq_refl eq_refl).
Defined.

(** ** A recipe and its owner *)


Lemma recipe_destroy_response (P : Project) (st : Store) (req : Request)
    (u pk : nat) (r : Row) :
  authenticated_as [TokenAuthentication] st req u ->
  method req = DELETE ->
  get_by_pk st {| qs_model := Recipe; qs_user_is := [u];
                  qs_order_by := Some "-id" |} pk = Some r ->
  handle P (recipe_url "recipes" (Some pk)) req st =
    ({| status_code := HTTP_204_NO_CONTENT; response_data := NoData |},
     set_table Recipe
       (List.filter (fun x => negb (Nat.eqb (row_id x) (row_id r)))
          (recipes st)) st).
Proof.
  intros Hauth Hm Hr. resolve_url. to_handler Hauth Hm.
  run. rewrite Hr. run. unfold delete_instance. run. reflexivity.
Qed.




(** X9: a DELETE of the owner on a recipe answers 204 and removes exactly
    that row; a later detail request of the owner at the same id answers
    404. *)
Theorem recipe_delete_by_owner (P : Project) (st : Store)
    (req again : Request) (u : nat) (r : Row) :
  authenticated_as [TokenAuthentication] st req u ->
  method req = DELETE ->
  authenticated_as [TokenAuthentication] st again u ->
  method again <> POST ->
  unique_ids (recipes st) ->
  In r (recipes st) ->
  row_user r = u ->
  let res := handle P (recipe_url "recipes" (Some (row_id r))) req st in
  status_of res = HTTP_204_NO_CONTENT
  /\ (forall x, In x (recipes (snd res)) <-> In x (recipes st) /\ x <> r)
  /\ status_of (handle P (recipe_url "recipes" (Some (row_id r))) again
                  (snd res)) = HTTP_404_NOT_FOUND.
Proof.
  intros Hauth Hm Hagain Ham Hnd Hin Hu res. unfold res.
  rewrite (recipe_destroy_response P st req u (row_id r) r Hauth Hm)
    by now apply get_by_pk_found.
  assert (authenticated_as [TokenAuthentication]
            (set_table Recipe
               (List.filter (fun x => negb (Nat.eqb (row_id x) (row_id r)))
                  (recipes st)) st) again u) as Hagain'
    by (unfold authenticated_as; now rewrite authenticate_set_table).
  cbn [fst snd].
  assert (forall x, In x (List.filter
                            (fun x => negb (Nat.eqb (row_id x) (row_id r)))
                            (recipes st))
                    <-> In x (recipes st) /\ x <> r) as Hrows.
  { intros x. rewrite List.filter_In, negb_true_iff, Nat.eqb_neq.
    split; intros [Hx Hne]; (split; [exact Hx|]).
    - intros ->. now apply Hne.
    - intros Hid. apply Hne. now apply (unique_ids_inj (recipes st)). }
  split; [reflexivity|]. split; [exact Hrows|].
  rewrite (recipes_foreign_detail P _ again u (row_id r) Hagain' Ham);
    [reflexivity|].
  cbn [set_table recipes]. intros x Hx Hid.
  apply List.filter_In in Hx as [_ Hx].
  apply negb_true_iff, Nat.eqb_neq in Hx. contradiction.
Qed.

Lemma recipe_delete_by_owner_witness :
  let req := token_request DELETE "t1" ∅ in
  authenticated_as [TokenAuthentication] example_store req 1
  /\ In (named 3 1 "Stew") (recipes example_store)
  /\ status_of (handle example_project (recipe_url "recipes" (Some 3)) req
                  example_store) = HTTP_204_NO_CONTENT.
Proof.
  intros req.
  split; [apply example_token_1|]. split; [simpl; auto|].
  apply (recipe_delete_by_owner example_project example_store req req 1
           (named 3 1 "Stew") (example_token_1 DELETE _) eq_refl
           (example_token_1 DELETE _));
    [discriminate | apply example_unique_ids | simpl; auto | reflexivity].
Defined.

(** X10: a PUT or PATCH of the owner on a recipe, with a valid body that does
    not carry [user], answers 200 with the detail serializer, replaces that
    row only, keeps its id and owner, sets the validated columns and keeps
    the others; PATCH validates as a partial update, PUT as a full one. *)
Theorem recipe_update_by_owner (P : Project) (st : Store) (req : Request)
    (u : nat) (r : Row) (vd : Dict) :
  authenticated_as [TokenAuthentication] st req u ->
  method req = PUT \/ method req = PATCH ->
  unique_ids (recipes st) ->
  In r (recipes st) ->
  row_user r = u ->
  run_validation P RecipeDetailSerializer
    (match method req with PATCH => true | _ => false end) st (data req)
  = Some vd ->
  vd !! "user" = None ->
  let r' := {| row_id := row_id r; row_user := u;
               row_fields := vd ∪ row_fields r |} in
  let res := handle P (recipe_url "recipes" (Some (row_id r))) req st in
  fst res = {| status_code := HTTP_200_OK;
               response_data := One RecipeDetailSerializer (ReprRow r') |}
  /\ recipes (snd res)
     = List.map (fun x => if Nat.eqb (row_id x) (row_id r) then r' else x)
         (recipes st)
  /\ (forall k, row_fields r' !! k
                = match vd !! k with
                  | Some v => Some v
                  | None => row_fields r !! k
                  end).
Proof.
  intros Hauth Hm Hnd Hin Hu Hv Hnouser r' res.
  assert (set_attrs (∅ ∪ vd) r = Some r') as Hset.
  { unfold set_attrs. rewrite (left_id_L ∅ (∪) vd), Hnouser.
    unfold r'. now rewrite Hu. }
  destruct (recipe_update_response P st req u (row_id r) r r' vd Hauth Hm)
    as (st' & Hres & Hsave); try assumption.
  { now apply get_by_pk_found. }
  unfold res. rewrite Hres. cbn [fst snd].
  split; [reflexivity|].
  split.
  - unfold save_row in Hsave. injection Hsave as <-. reflexivity.
  - intros k. cbn [r' row_fields]. rewrite lookup_union.
    destruct (vd !! k), (row_fields r !! k); reflexivity.
Qed.

Lemma recipe_update_by_owner_witness :
  let req := token_request PATCH "t1" {[ "title" := VStr "Broth" ]} in
  authenticated_as [TokenAuthentication] example_store req 1
  /\ In (named 1 1 "Soup") (recipes example_store)
  /\ List.map row_id
       (recipes (snd (handle example_project (recipe_url "recipes" (Some 1))
                        req example_store))) = [1; 2; 3].
Proof.
  intros req.
  split; [apply example_token_1|]. split; [simpl; auto|].
  destruct (recipe_update_by_owner example_project example_store req 1
              (named 1 1 "Soup") (data req) (example_token_1 PATCH _)
              (or_intror eq_refl) (proj1 example_unique_ids))
    as (_ & Hrows & _); [simpl; auto | reflexivity | reflexivity | reflexivity |].
  change (Some 1) with (Some (row_id (named 1 1 "Soup"))).
  rewrite Hrows. reflexivity.
Defined.

(** ** Ingredients and tokens *)

Lemma get_by_pk_all_found (st : Store) (m : Model) (r : Row) :
  unique_ids (table m st) -> In r (table m st) ->
  get_by_pk st (objects_all m) (row_id r) = Some r.
Proof.
  intros Hnd Hin. unfold get_by_pk. rewrite evaluate_all.
  destruct (List.find _ _) as [r'|] eqn:Hfind.
  - apply List.find_some in Hfind as [Hin' Hid]. apply Nat.eqb_eq in Hid.
    f_equal. now apply (unique_ids_inj (table m st)).
  - eapply List.find_none in Hfind; [|exact Hin].
    now rewrite Nat.eqb_refl in Hfind.
Qed.

(** X11: a DELETE on an ingredient by any authenticated user answers 204 and
    removes exactly that row, whoever owns it: the ingredient view looks the
    object up in the whole table. *)
Theorem ingredient_delete_ignores_owner (P : Project) (st : Store)
    (req : Request) (u : nat) (r : Row) :
  authenticated_as [TokenAuthentication] st req u ->
  method req = DELETE ->
  unique_ids (ingredients st) ->
  In r (ingredients st) ->
  let res := handle P (recipe_url "ingredients" (Some (row_id r))) req st in
  status_of res = HTTP_204_NO_CONTENT
  /\ forall x, In x (ingredients (snd res)) <-> In x (ingredients st) /\ x <> r.
Proof.
  intros Hauth Hm Hnd Hin res. unfold res.
  resolve_url. to_handler Hauth Hm. run.
  change {| qs_model := Ingredient; qs_user_is := []; qs_order_by := None |}
    with (objects_all Ingredient).
  rewrite (get_by_pk_all_found st Ingredient r Hnd Hin). run.
  unfold delete_instance. run. cbn [fst snd set_table ingredients table].
  split; [reflexivity|].
  intros x. rewrite List.filter_In, negb_true_iff, Nat.eqb_neq.
  split; intros [Hx Hne]; (split; [exact Hx|]).
  - intros ->. now apply Hne.
  - intros Hid. apply Hne. now apply (unique_ids_inj (ingredients st)).
Qed.

Lemma ingredient_delete_ignores_owner_witness :
  let req := token_request DELETE "t1" ∅ in
  authenticated_as [TokenAuthentication] example_store req 1
  /\ In (named 3 2 "other ingredient") (ingredients example_store)
  /\ status_of (handle example_project (recipe_url "ingredients" (Some 3))
                  req example_store) = HTTP_204_NO_CONTENT.
Proof.
  intros req.
  split; [apply example_token_1|]. split; [simpl; auto|].
  apply (ingredient_delete_ignores_owner example_project example_store req 1
           (named 3 2 "other ingredient") (example_token_1 DELETE _) eq_refl);
    [apply example_unique_ids | simpl; auto].
Defined.





(** ** The user views *)

Lemma me_update (P : Project) (st : Store) (req : Request) (u : nat)
    (row : UserRow) (vd : Dict) :
  authenticated_as [TokenAuthentication] st req u ->
  method req = PUT \/ method req = PATCH ->
  users st !! u = Some row ->
  run_validation P UserSerializer
    (match method req with PATCH => true | _ => false end) st (data req)
  = Some vd ->
  let row' := {| is_active := is_active row;
                 user_fields := (∅ ∪ vd) ∪ user_fields row |} in
  handle P (user_url "me") req st =
    ({| status_code := HTTP_200_OK;
        response_data := One UserSerializer (ReprUser u row') |},
     set_users (<[u := row']> (users st)) st).
Proof.
  intros Hauth Hm Hu Hv row'. resolve_url.
  destruct Hm as [Hm|Hm]; rewrite Hm in Hv; to_handler Hauth Hm.
  all: run; rewrite Hv; run; rewrite Hu; run.
  all: cbn [users set_users]; rewrite lookup_insert_eq; reflexivity.
Qed.

Lemma me_update_invalid (P : Project) (st : Store) (req : Request) (u : nat) :
  authenticated_as [TokenAuthentication] st req u ->
  method req = PUT \/ method req = PATCH ->
  run_validation P UserSerializer
    (match method req with PATCH => true | _ => false end) st (data req)
  = None ->
  handle P (user_url "me") req st
  = (handle_exception [TokenAuthentication] ValidationError, st).
Proof.
  intros Hauth Hm Hv. resolve_url.
  destruct Hm as [Hm|Hm]; rewrite Hm in Hv; to_handler Hauth Hm.
  all: run; rewrite Hv; run; reflexivity.
Qed.

(** X13: a valid PUT or PATCH to [/api/user/me/] answers 200 with the
    requester's row as stored after the request: [is_active] is kept, the
    validated columns are set and the other columns keep their values. *)
Theorem manage_user_update_merges (P : Project) (st : Store) (req : Request)
    (u : nat) (row : UserRow) (vd : Dict) :
  authenticated_as [TokenAuthentication] st req u ->
  method req = PUT \/ method req = PATCH ->
  users st !! u = Some row ->
  run_validation P UserSerializer
    (match method req with PATCH => true | _ => false end) st (data req)
  = Some vd ->
  let res := handle P (user_url "me") req st in
  exists row',
    fst res = {| status_code := HTTP_200_OK;
                 response_data := One UserSerializer (ReprUser u row') |}
    /\ users (snd res) !! u = Some row'
    /\ is_active row' = is_active row
    /\ forall k, user_fields row' !! k
                 = match vd !! k with
                   | Some v => Some v
                   | None => user_fields row !! k
                   end.
Proof.
  intros Hauth Hm Hu Hv res. unfold res.
  rewrite (me_update P st req u row vd Hauth Hm Hu Hv).
  eexists. split; [reflexivity|].
  cbn [snd set_users users]. split; [apply lookup_insert_eq|].
  split; [reflexivity|].
  intros k. cbn [user_fields]. rewrite (left_id_L ∅ (∪) vd), lookup_union.
  destruct (vd !! k), (user_fields row !! k); reflexivity.
Qed.

Lemma manage_user_update_merges_witness :
  let req := token_request PATCH "t1" {[ "name" := VStr "Ann" ]} in
  authenticated_as [TokenAuthentication] example_store req 1
  /\ users example_store !! 1 = Some active
  /\ exists row',
       users (snd (handle example_project (user_url "me") req example_store))
         !! 1 = Some row'
       /\ user_fields row' !! "name" = Some (VStr "Ann").
Proof.
  intros req.
  split; [apply example_token_1|]. split; [reflexivity|].
  destruct (manage_user_update_merges example_project example_store req 1
              active (data req) (example_token_1 PATCH _) (or_intror eq_refl)
              eq_refl eq_refl) as (row' & _ & Hrow & _ & Hfields).
  exists row'. split; [exact Hrow|]. now rewrite Hfields.
Defined.

(** X14: [/api/user/me/] answers POST and DELETE with 405 and an invalid PUT
    or PATCH body with 400, changing nothing; no request to it creates or
    deletes an account. *)
Theorem manage_user_rejections (P : Project) (st : Store) (req : Request)
    (u : nat) :
  authenticated_as [TokenAuthentication] st req u ->
  let res := handle P (user_url "me") req st in
  (method req = POST \/ method req = DELETE ->
   status_of res = HTTP_405_METHOD_NOT_ALLOWED /\ snd res = st)
  /\ ((method req = PUT \/ method req = PATCH) ->
      run_validation P UserSerializer
        (match method req with PATCH => true | _ => false end) st (data req)
      = None ->
      status_of res = HTTP_400_BAD_REQUEST /\ snd res = st)
  /\ dom (users (snd res)) = dom (users st).
Proof.
  intros Hauth res. split; [|split].
  - intros Hm. unfold res. resolve_url.
    destruct Hm as [Hm|Hm]; to_handler Hauth Hm; now split.
  - intros Hm Hv. unfold res.
    rewrite (me_update_invalid P st req u Hauth Hm Hv). now split.
  - destruct (me_response P st req u Hauth)
      as [[e Hres] | [(row & _ & _ & Hres) | (row & vd & _ & Hu & Hres)]];
      fold res in Hres; cbv zeta in Hres; rewrite Hres; cbn [snd];
      try reflexivity.
    cbn [set_users users]. rewrite dom_insert_L.
    apply subseteq_union_1_L, singleton_subseteq_l, elem_of_dom. eauto.
Qed.

Lemma manage_user_rejections_witness :
  let req := token_request DELETE "t1" ∅ in
  authenticated_as [TokenAuthentication] example_store req 1
  /\ status_of (handle example_project (user_url "me") req example_store)
     = HTTP_405_METHOD_NOT_ALLOWED.
Proof.
  intros req. split; [apply example_token_1|].
  apply (manage_user_rejections example_project example_store req 1
           (example_token_1 DELETE _)).
  now right.
Defined.

Lemma fresh_user_id_above (us : gmap nat UserRow) (k : nat) (row : UserRow) :
  us !! k = Some row -> k < fresh_user_id us.
Proof.
  unfold fresh_user_id. revert k row.
  apply (map_fold_weak_ind
           (fun n (m : gmap nat UserRow) =>
              forall k row, m !! k = Some row -> k < S n)).
  - intros k row Hk. now rewrite lookup_empty in Hk.
  - intros i x m n Hi IH k row Hk.
    destruct (decide (i = k)) as [->|Hne].
    + lia.
    + rewrite lookup_insert_ne in Hk by exact Hne.
      specialize (IH k row Hk). lia.
Qed.

Lemma fresh_user_id_fresh (us : gmap nat UserRow) :
  us !! fresh_user_id us = None.
Proof.
  destruct (us !! fresh_user_id us) as [row|] eqn:Hk; [|reflexivity].
  apply fresh_user_id_above in Hk. lia.
Qed.

(** X15: in a database whose user sequence is above the stored keys, a
    POST without credentials to the user create endpoint with a valid body
    answers 201 and stores a new, active user with the validated columns
    under the value of the sequence, a key no user had, moving the sequence
    past it and leaving every other user as it was; an invalid body is
    answered 400 and stores nothing. *)
Theorem create_user_anonymous (P : Project) (st : Store) (req : Request) :
  no_credentials req ->
  method req = POST ->
  fresh_user_id (users st) <= user_id_seq st ->
  let res := handle P (user_url "create") req st in
  let pk := user_id_seq st in
  match run_validation P UserSerializer false st (data req) with
  | Some vd =>
      fst res = {| status_code := HTTP_201_CREATED;
                   response_data :=
                     One UserSerializer
                       (ReprUser pk {| is_active := true;
                                       user_fields := vd |}) |}
      /\ users st !! pk = None
      /\ users (snd res) !! pk
         = Some {| is_active := true; user_fields := vd |}
      /\ (forall k, k <> pk -> users (snd res) !! k = users st !! k)
      /\ pk < user_id_seq (snd res)
  | None => status_of res = HTTP_400_BAD_REQUEST /\ snd res = st
  end.
Proof.
  intros Hno Hm Hseq res pk. subst pk. unfold res. resolve_url.
  rewrite (run_allow_any _ _ _ _ _ _ _ _ _
             (no_credentials_anonymous _ st req Hno)), Hm.
  eval_action; eval_getattr; cbv beta iota.
  run.
  destruct (run_validation P UserSerializer false st (data req)) as [vd|];
    run; [|now split].
  rewrite (left_id_L ∅ (∪) vd).
  assert (next_user_id st = user_id_seq st) as Hnext
    by (unfold next_user_id; lia).
  unfold create_user_row. rewrite Hnext. run. cbn [users set_users].
  rewrite lookup_insert_eq. run.
  cbn [fst snd users set_users user_id_seq].
  split; [reflexivity|].
  split.
  { destruct (users st !! user_id_seq st) as [row|] eqn:Hk; [|reflexivity].
    apply fresh_user_id_above in Hk. lia. }
  split; [apply lookup_insert_eq|].
  split; [intros k Hk; now rewrite lookup_insert_ne|].
  pose proof (fresh_user_id_above
                (<[user_id_seq st := {| is_active := true;
                                        user_fields := vd |}]> (users st))
                (user_id_seq st) _ (lookup_insert_eq _ _ _)).
  lia.
Qed.

Lemma create_user_anonymous_witness :
  let req := anonymous_request POST {[ "email" := VStr "c@example.com" ]} in
  let st := set_users {[ 1 := active ]} example_store in
  no_credentials req
  /\ method req = POST
  /\ fresh_user_id (users st) = 2
  /\ user_id_seq st = 3
  /\ users (snd (handle example_project (user_url "create") req st)) !! 3
     = Some {| is_active := true; user_fields := data req |}.
Proof.
  intros req st.
  split; [apply anonymous_request_no_credentials|]. split; [reflexivity|].
  split; [reflexivity|]. split; [reflexivity|].
  apply (create_user_anonymous example_project st req
           (anonymous_request_no_credentials POST _) eq_refl).
  vm_compute. lia.
Defined.

(** ** Issuing tokens *)

Lemma token_of_user_complete (st : Store) (u : nat) :
  ObtainAuthToken.token_of_user st u = None ->
  forall key, tokens st !! key <> Some u.
Proof.
  unfold ObtainAuthToken.token_of_user. intros Hnone key Hk.
  destruct (List.find _ _) as [kv|] eqn:Hfind; [discriminate|].
  eapply List.find_none with (x := (key, u)) in Hfind.
  - cbn in Hfind. now rewrite Nat.eqb_refl in Hfind.
  - apply list_elem_of_In. now apply elem_of_map_to_list.
Qed.

Lemma token_of_user_after_insert (st : Store) (u : nat) (key : string) :
  ObtainAuthToken.token_of_user st u = None ->
  tokens st !! key = None ->
  ObtainAuthToken.token_of_user (set_tokens (<[key := u]> (tokens st)) st) u
  = Some key.
Proof.
  intros Hnone Hfresh.
  destruct (ObtainAuthToken.token_of_user
              (set_tokens (<[key := u]> (tokens st)) st) u) as [k|] eqn:Hk.
  - apply token_of_user_sound in Hk. cbn [tokens set_tokens] in Hk.
    destruct (decide (key = k)) as [->|Hne]; [reflexivity|].
    rewrite lookup_insert_ne in Hk by exact Hne.
    now destruct (token_of_user_complete st u Hnone k).
  - destruct (token_of_user_complete _ u Hk key).
    cbn [tokens set_tokens]. apply lookup_insert_eq.
Qed.

Lemma token_post (P : Project) (st : Store) (req : Request) (user : PyUser)
    (ok : bool) (vd : Dict) (u : nat) :
  method req = POST ->
  _authenticate
    (request_authenticators (DEFAULT_AUTHENTICATION_CLASSES (settings P)) req)
    st req = inr (user, ok) ->
  run_validation P AuthTokenSerializer false st (data req) = Some vd ->
  vd !! "user" = Some (VUser (User u)) ->
  handle P (user_url "token") req st
  = match ObtainAuthToken.token_of_user st u with
    | Some key =>
        ({| status_code := HTTP_200_OK; response_data := TokenKey key |}, st)
    | None =>
        match tokens st !! generate_key P st with
        | Some _ =>
            (handle_exception (DEFAULT_AUTHENTICATION_CLASSES (settings P))
               ServerError, st)
        | None =>
            ({| status_code := HTTP_200_OK;
                response_data := TokenKey (generate_key P st) |},
             set_tokens (<[generate_key P st := u]> (tokens st)) st)
        end
    end.
Proof.
  intros Hm Hauth Hv Hu. resolve_url.
  rewrite (run_allow_any _ _ _ _ _ _ _ _ _ Hauth), Hm.
  eval_action; eval_getattr; cbv beta iota.
  unfold APIView.run_handler, ObtainAuthToken.post.
  run. rewrite Hv. run. rewrite Hu. run.
  destruct (ObtainAuthToken.token_of_user st u) as [key|]; run;
    [reflexivity|].
  destruct (tokens st !! generate_key P st); run; reflexivity.
Qed.

(** X16: the token endpoint creates the token of a user once: for a user
    without a token the first request stores the generated key for that user
    and changes no other token, and a second request answers with the same
    key and changes nothing. *)
Theorem token_issued_once (P : Project) (st : Store) (req : Request)
    (vd : Dict) (u : nat) :
  no_credentials req ->
  method req = POST ->
  (forall st', users st' = users st ->
     run_validation P AuthTokenSerializer false st' (data req) = Some vd) ->
  vd !! "user" = Some (VUser (User u)) ->
  ObtainAuthToken.token_of_user st u = None ->
  tokens st !! generate_key P st = None ->
  let key := generate_key P st in
  let first := handle P (user_url "token") req st in
  let second := handle P (user_url "token") req (snd first) in
  fst first = {| status_code := HTTP_200_OK; response_data := TokenKey key |}
  /\ tokens (snd first) !! key = Some u
  /\ (forall k, k <> key -> tokens (snd first) !! k = tokens st !! k)
  /\ second = (fst first, snd first).
Proof.
  intros Hno Hm Hv Hu Hnone Hfresh key first second.
  assert (first = ({| status_code := HTTP_200_OK;
                      response_data := TokenKey key |},
                   set_tokens (<[key := u]> (tokens st)) st)) as Hfirst.
  { unfold first.
    rewrite (token_post P st req _ _ vd u Hm
               (no_credentials_anonymous _ st req Hno) (Hv st eq_refl) Hu).
    now rewrite Hnone, Hfresh. }
  unfold second. rewrite Hfirst. cbn [fst snd tokens set_tokens].
  split; [reflexivity|]. split; [apply lookup_insert_eq|].
  split; [intros k Hk; now rewrite lookup_insert_ne|].
  rewrite (token_post P (set_tokens (<[key := u]> (tokens st)) st) req _ _
             vd u Hm (no_credentials_anonymous _ _ req Hno)
             (Hv (set_tokens (<[key := u]> (tokens st)) st) eq_refl) Hu).
  now rewrite (token_of_user_after_insert st u key Hnone Hfresh).
Qed.

Lemma token_issued_once_witness :
  let st := set_tokens ∅ example_store in
  let req := anonymous_request POST {[ "user" := VUser (User 1) ]} in
  no_credentials req
  /\ ObtainAuthToken.token_of_user st 1 = None
  /\ tokens st !! generate_key example_project st = None
  /\ handle example_project (user_url "token") req
       (snd (handle example_project (user_url "token") req st))
     = (fst (handle example_project (user_url "token") req st),
        snd (handle example_project (user_url "token") req st)).
Proof.
  intros st req.
  split; [apply anonymous_request_no_credentials|].
  split; [reflexivity|]. split; [reflexivity|].
  apply (token_issued_once example_project st req (data req) 1
           (anonymous_request_no_credentials POST _) eq_refl);
    reflexivity.
Defined.

(** X17: a key the token endpoint answers with for an active user
    authenticates that user on the recipe list: the list request bearing it
    is answered 200 with exactly that user's recipes, in descending order of
    id. *)
Theorem issued_token_lists_own_recipes (P : Project) (st : Store)
    (req : Request) (vd : Dict) (u : nat) (key : string) :
  no_credentials req ->
  method req = POST ->
  run_validation P AuthTokenSerializer false st (data req) = Some vd ->
  vd !! "user" = Some (VUser (User u)) ->
  active_user st u = true ->
  let issued := handle P (user_url "token") req st in
  response_data (fst issued) = TokenKey key ->
  let res := handle P (recipe_url "recipes" None) (token_request GET key ∅)
               (snd issued) in
  status_of res = HTTP_200_OK
  /\ Permutation (listed res) (owned_by u (recipes st))
  /\ descending "id" (listed res).
Proof.
  intros Hno Hm Hv Hu Hact issued Hkey res.
  assert (tokens (snd issued) !! key = Some u
          /\ users (snd issued) = users st
          /\ recipes (snd issued) = recipes st) as (Hk & Hus & Hrs).
  { revert Hkey. unfold issued.
    rewrite (token_post P st req _ _ vd u Hm
               (no_credentials_anonymous _ st req Hno) Hv Hu).
    destruct (ObtainAuthToken.token_of_user st u) as [k|] eqn:Hk.
    - cbn [fst snd response_data]. intros [= ->].
      repeat split. now apply token_of_user_sound.
    - destruct (tokens st !! generate_key P st); cbn [fst snd response_data];
        [discriminate|].
      intros [= <-]. cbn [tokens users recipes set_tokens].
      repeat split. apply lookup_insert_eq. }
  assert (authenticated_as [TokenAuthentication] (snd issued)
            (token_request GET key ∅) u) as Hauth.
  { apply token_authenticates; [exact Hk|].
    unfold active_user in *. now rewrite Hus. }
  destruct (recipe_list_scoped_ordered P _ _ u Hauth eq_refl) as (Hp & Hs & _).
  fold res in Hp, Hs. cbv zeta in Hp, Hs. rewrite Hrs in Hp.
  split; [|now split].
  unfold res. now rewrite (recipe_list_response P _ _ u Hauth eq_refl).
Qed.

Lemma issued_token_lists_own_recipes_witness :
  let req := anonymous_request POST {[ "user" := VUser (User 1) ]} in
  no_credentials req
  /\ active_user example_store 1 = true
  /\ response_data
       (fst (handle example_project (user_url "token") req example_store))
     = TokenKey "t1"
  /\ status_of
       (handle example_project (recipe_url "recipes" None)
          (token_request GET "t1" ∅)
          (snd (handle example_project (user_url "token") req example_store)))
     = HTTP_200_OK.
Proof.
  intros req.
  split; [apply anonymous_request_no_credentials|].
  split; [reflexivity|]. split; [reflexivity|].
  apply (issued_token_lists_own_recipes example_project example_store req
           (data req) 1 "t1" (anonymous_request_no_credentials POST _)
           eq_refl eq_refl eq_refl eq_refl eq_refl).
Defined.

(** X18: the answer of the tag endpoints to a request without credentials is
    decided by the settings, not by the [TokenAuthentication] the class body
    names: 401 when the first default authentication class is token or basic
    authentication, 403 otherwise; the database is unchanged. *)
Theorem tags_status_follows_default_class (P : Project) (pk : option nat)
    (req : Request) (st : Store) :
  no_credentials req ->
  let res := handle P (recipe_url "tags" pk) req st in
  snd res = st
  /\ status_of res
     = match DEFAULT_AUTHENTICATION_CLASSES (settings P) with
       | (TokenAuthentication | BasicAuthentication) :: _ =>
           HTTP_401_UNAUTHORIZED
       | _ => HTTP_403_FORBIDDEN
       end.
Proof.
  intros Hno res.
  destruct (tags_without_credentials P pk req st Hno) as [Hs Hst].
  fold res in Hs, Hst. cbv zeta in Hs, Hst. split; [exact Hst|].
  rewrite Hs.
  destruct (DEFAULT_AUTHENTICATION_CLASSES (settings P)) as [|[] ?];
    reflexivity.
Qed.

Lemma tags_status_follows_default_class_witness :
  no_credentials (anonymous_request GET ∅)
  /\ status_of (handle example_project (recipe_url "tags" None)
                  (anonymous_request GET ∅) example_store)
     = HTTP_403_FORBIDDEN.
Proof.
  split; [apply anonymous_request_no_credentials|].
  apply (tags_status_follows_default_class example_project None
           (anonymous_request GET ∅) example_store
           (anonymous_request_no_credentials GET ∅)).
Defined.
